(** * CBM container loader: a shallow embedding of [cbm_loader.cpp] and of
    the seed transform of [cbm_core.c].

    Conventions of the embedding.
    - A byte is [Byte.byte]; [uint16_t], [uint32_t], [size_t] and [int] are
      integers in [Z] whose wrap-around is written out ([size_t] is 64 bits
      wide: the loader stores [7000000000ULL] in one).
    - A struct that the loader fills with [istream::read] is kept as its
      object representation (16 bytes for [CBMHeader], 104 bytes for
      [CBMMetadata], natural alignment, no padding); fields are decoded at
      their offsets, little-endian as on the hosts the CUDA runtime runs on.
    - Console output, file reads and CUDA runtime calls are recorded in a
      [world] that every function threads through.
    - The CUDA runtime, the file system and [std::stoull] are not part of
      the program: they are the fields of an [environment]. *)

From Stdlib Require Import ZArith Lia.
From Stdlib Require Import Strings.Byte.
From stdpp Require Import base list gmap strings.

Open Scope Z_scope.

(** ** Bytes and fixed-width integers *)

#[global] Instance byte_eqdec : EqDecision byte := Byte.byte_eq_dec.
#[global] Instance byte_inhabited : Inhabited byte := populate x00.

Definition byte_val (b : byte) : Z := Z.of_N (Byte.to_N b).

(** [l[i]] of an object representation; a missing byte reads as 0. *)
Definition byte_at (i : nat) (l : list byte) : byte := default x00 (l !! i).

Definition le16 (off : nat) (l : list byte) : Z :=
  byte_val (byte_at off l) + 256 * byte_val (byte_at (off + 1) l).

Definition le32 (off : nat) (l : list byte) : Z :=
  le16 off l + 65536 * le16 (off + 2) l.

Definition SIZE_MAX1 : Z := 2 ^ 64.

(** Arithmetic of [size_t]. *)
Definition to_size_t (z : Z) : Z := z mod SIZE_MAX1.

(** Conversion to [int] (32 bits, two's complement). *)
Definition to_int (z : Z) : Z := (z + 2 ^ 31) mod 2 ^ 32 - 2 ^ 31.

(** ** The container structs *)

(** [#define CBM_MAGIC "CBNQ"], the literal with its terminating NUL. *)
Definition CBM_MAGIC : list byte := [x43; x42; x4e; x51; x00].

Definition CBM_VERSION : Z := 256.

Definition sizeof_CBMHeader : nat := 16.
Definition sizeof_CBMMetadata : nat := 104.
Definition sizeof_float : Z := 4.

(** Object representation of [struct CBMHeader]. *)
Definition CBMHeader := list byte.

Definition magic (h : CBMHeader) : list byte := take 4 h.
Definition version (h : CBMHeader) : Z := le16 4 h.
Definition flags (h : CBMHeader) : Z := le16 6 h.
Definition reserved (h : CBMHeader) : Z := le32 8 h + 2 ^ 32 * le32 12 h.

(** Object representation of [struct CBMMetadata]. *)
Definition CBMMetadata := list byte.

Definition model_name (md : CBMMetadata) : list byte := take 64 md.
Definition architecture (md : CBMMetadata) : list byte := take 32 (drop 64 md).
Definition seed_size (md : CBMMetadata) : Z := le32 96 md.
Definition graph_node_count (md : CBMMetadata) : Z := le32 100 md.

Record CBM_Model := mkModel {
  header : CBMHeader;
  metadata : CBMMetadata;
  seed : list byte;          (* std::vector<uint8_t> *)
  d_weights : Z;             (* void*, 0 is nullptr *)
  weight_count : Z           (* size_t *)
}.

(** [CBM_Model model = {};] *)
Definition model_zero : CBM_Model :=
  {| header := replicate sizeof_CBMHeader x00;
     metadata := replicate sizeof_CBMMetadata x00;
     seed := [];
     d_weights := 0;
     weight_count := 0 |}.

Definition set_header (h : CBMHeader) (m : CBM_Model) : CBM_Model :=
  {| header := h; metadata := metadata m; seed := seed m;
     d_weights := d_weights m; weight_count := weight_count m |}.
Definition set_metadata (md : CBMMetadata) (m : CBM_Model) : CBM_Model :=
  {| header := header m; metadata := md; seed := seed m;
     d_weights := d_weights m; weight_count := weight_count m |}.
Definition set_seed (s : list byte) (m : CBM_Model) : CBM_Model :=
  {| header := header m; metadata := metadata m; seed := s;
     d_weights := d_weights m; weight_count := weight_count m |}.
Definition set_d_weights (p : Z) (m : CBM_Model) : CBM_Model :=
  {| header := header m; metadata := metadata m; seed := seed m;
     d_weights := p; weight_count := weight_count m |}.
Definition set_weight_count (n : Z) (m : CBM_Model) : CBM_Model :=
  {| header := header m; metadata := metadata m; seed := seed m;
     d_weights := d_weights m; weight_count := n |}.

(** ** The world: console, file reads, CUDA runtime calls *)

Inductive cudaError_t :=
  | cudaSuccess
  | cudaErrorInvalidValue
  | cudaErrorMemoryAllocation.

#[global] Instance cudaError_eq_dec : EqDecision cudaError_t.
Proof. solve_decision. Defined.

(** A line written to [std::cout] or [std::cerr]. *)
Inductive message :=
  | ErrFailedToOpen (path : string)
  | ErrBadMagic
  | OutVersion (major minor : Z)
  | OutModel (name : list byte)
  | OutArchitecture (arch : list byte)
  | OutSeedSize (n : Z)
  | OutUnfolding
  | OutTargetParameters (param_count : Z)
  | ErrVRAMAllocationFailed (err : cudaError_t)
  | OutLaunching (blocks threads : Z)
  | OutMaterializationComplete
  | OutBanner
  | OutUsage
  | OutModelReady (address : Z).

(** A call into the CUDA runtime, with what it was given and, for
    [cudaMalloc], what it answered: the error code and the pointer it
    stored through its first argument ([None]: it stored nothing). *)
Inductive cuda_call :=
  | CallMalloc (size : Z) (err : cudaError_t) (stored : option Z)
  | CallMemcpyHostToDevice (dst : option Z) (src : list byte) (count : Z)
  | CallFree (ptr : option Z).

Record world := mkWorld {
  console : list message;          (* oldest line first *)
  reads : list (nat * nat);        (* istream::read: (requested, extracted) *)
  cuda : list cuda_call            (* oldest call first *)
}.

Definition world_zero : world := {| console := []; reads := []; cuda := [] |}.

(** What the program takes from outside. *)
Record environment := mkEnv {
  (** the files that can be opened for reading, with their contents *)
  env_fs : gmap string (list byte);
  (** the answer of [cudaMalloc] to a request of [size] bytes, after the
      calls made so far *)
  env_cudaMalloc : list cuda_call -> Z -> cudaError_t * option Z;
  (** [std::stoull]; [None] when it throws *)
  env_stoull : string -> option Z
}.

(** Computations that change the world. *)
Definition M (A : Type) : Type := world -> A * world.

Definition ret {A} (a : A) : M A := fun w => (a, w).
Definition bind {A B} (c : M A) (k : A -> M B) : M B :=
  fun w => let (a, w') := c w in k a w'.

Notation "'do' x <- c ; k" := (bind c (fun x => k))
  (at level 10, x pattern, c at level 100, k at level 200).
Notation "c ;; k" := (bind c (fun _ => k))
  (at level 100, k at level 200, right associativity).

Definition print (msg : message) : M unit := fun w =>
  (tt, {| console := console w ++ [msg]; reads := reads w; cuda := cuda w |}).

Definition log_read (requested extracted : nat) : M unit := fun w =>
  (tt, {| console := console w; reads := reads w ++ [(requested, extracted)];
          cuda := cuda w |}).

Definition log_cuda (c : cuda_call) : M unit := fun w =>
  (tt, {| console := console w; reads := reads w; cuda := cuda w ++ [c] |}).

(** ** [std::ifstream] *)

Record ifstream := mkStream {
  contents : list byte;
  gpos : nat;           (* read position *)
  good : bool           (* no eofbit, failbit or badbit *)
}.

Definition ifstream_open (data : list byte) : ifstream :=
  {| contents := data; gpos := 0; good := true |}.

(** [file.read(buf, n)]: on a stream that is not good nothing is extracted;
    otherwise up to [n] bytes are extracted, and running into the end of the
    file before [n] bytes sets eofbit and failbit. *)
Definition istream_read (n : nat) (f : ifstream) : list byte * ifstream :=
  if good f then
    let got := take n (drop (gpos f) (contents f)) in
    (got, {| contents := contents f;
             gpos := (gpos f + length got)%nat;
             good := bool_decide (length got = n) |})
  else ([], f).

(** The extracted bytes land at the start of the destination; the rest of
    the destination keeps what it held. *)
Definition store (got : list byte) (dst : list byte) : list byte :=
  got ++ drop (length got) dst.

Definition read_into (n : nat) (dst : list byte) (f : ifstream)
  : M (list byte * ifstream) :=
  let (got, f') := istream_read n f in
  log_read n (length got) ;;
  ret (store got dst, f').

(** [strncmp(s1, s2, n)]: the sign of the first difference within [n]
    characters, 0 when there is none or both strings end first. *)
Fixpoint strncmp (s1 s2 : list byte) (n : nat) : Z :=
  match n with
  | O => 0
  | S n' =>
      let c1 := byte_at 0 s1 in
      let c2 := byte_at 0 s2 in
      if decide (c1 = c2) then
        if decide (c1 = x00) then 0 else strncmp (tail s1) (tail s2) n'
      else byte_val c1 - byte_val c2
  end.

(** [operator<<(const char* )]: the bytes up to the first NUL. The list
    is the object the pointer points into; where it holds no NUL the C++
    code reads on past the object, which has no defined result, and the
    text ends here with the object. *)
Fixpoint c_str (l : list byte) : list byte :=
  match l with
  | [] => []
  | b :: l' => if decide (b = x00) then [] else b :: c_str l'
  end.

(** ** CUDA runtime calls *)

Definition cudaMalloc (env : environment) (size : Z) : M (cudaError_t * option Z) :=
  fun w =>
    let r := env_cudaMalloc env (cuda w) size in
    (log_cuda (CallMalloc size (fst r) (snd r)) ;; ret r) w.

Definition cudaMemcpyHostToDevice (dst : option Z) (src : list byte) (count : Z)
  : M unit :=
  log_cuda (CallMemcpyHostToDevice dst src count).

Definition cudaFree (ptr : option Z) : M unit := log_cuda (CallFree ptr).

(** ** [load_cbm_file] *)

Definition load_cbm_file (env : environment) (path : string) (model : CBM_Model)
  : M (bool * CBM_Model) :=
  match env_fs env !! path with
  | None =>
      print (ErrFailedToOpen path) ;;
      ret (false, model)
  | Some data =>
      let file := ifstream_open data in
      (* Read header *)
      do (h, file) <- read_into sizeof_CBMHeader (header model) file;
      let model := set_header h model in
      if decide (strncmp (magic (header model)) CBM_MAGIC 4 <> 0) then
        print ErrBadMagic ;;
        ret (false, model)
      else
        print (OutVersion (Z.shiftr (version (header model)) 8)
                          (Z.land (version (header model)) 255)) ;;
        (* Read metadata *)
        do (md, file) <- read_into sizeof_CBMMetadata (metadata model) file;
        let model := set_metadata md model in
        print (OutModel (c_str (metadata model))) ;;
        print (OutArchitecture (c_str (drop 64 (metadata model)))) ;;
        print (OutSeedSize (seed_size (metadata model))) ;;
        (* Read seed *)
        let n := Z.to_nat (seed_size (metadata model)) in
        let model := set_seed (resize n x00 (seed model)) model in
        do (s, file) <- read_into n (seed model) file;
        let model := set_seed s model in
        ret (true, model)
  end.

(** ** [materialize_intelligence] *)

Definition threads : Z := 256.

(** [int blocks = (param_count + threads - 1) / threads;] with
    [param_count] a [size_t]: the sum and the quotient are computed in
    [size_t], the result is converted to [int]. *)
Definition blocks (param_count : Z) : Z :=
  to_int (to_size_t (to_size_t (param_count + to_size_t threads) - 1)
          / to_size_t threads).

Definition materialize_intelligence (env : environment) (model : CBM_Model)
    (param_count : Z) : M (bool * CBM_Model) :=
  print OutUnfolding ;;
  print (OutTargetParameters param_count) ;;
  let model := set_weight_count param_count model in
  (* Allocate VRAM for the weights *)
  do (err, stored) <- cudaMalloc env (to_size_t (param_count * sizeof_float));
  let model := set_d_weights (default (d_weights model) stored) model in
  if decide (err <> cudaSuccess) then
    print (ErrVRAMAllocationFailed err) ;;
    ret (false, model)
  else
    (* Copy seed to GPU; [d_seed] is an uninitialised local *)
    do (_, d_seed) <- cudaMalloc env (Z.of_nat (length (seed model)));
    cudaMemcpyHostToDevice d_seed (seed model) (Z.of_nat (length (seed model))) ;;
    (* Calculate launch parameters *)
    print (OutLaunching (blocks param_count) threads) ;;
    (* Cleanup seed *)
    cudaFree d_seed ;;
    print OutMaterializationComplete ;;
    ret (true, model).

(** ** [destroy_model] *)

Definition destroy_model (model : CBM_Model) : M CBM_Model :=
  do model <-
    (if decide (d_weights model <> 0) then
       cudaFree (Some (d_weights model)) ;;
       ret (set_d_weights 0 model)
     else ret model);
  ret (set_seed [] model).

(** ** [main]

    The result is the exit code, or [None] when [std::stoull] throws and
    the process is terminated. *)

Definition default_param_count : Z := 7000000000.

Definition main (env : environment) (argv : list string) : M (option Z) :=
  print OutBanner ;;
  if decide (length argv < 2)%nat then
    print OutUsage ;;
    ret (Some 1)
  else
    let model := model_zero in
    (* 1. Load CBM header *)
    do (loaded, model) <- load_cbm_file env (default EmptyString (argv !! 1%nat)) model;
    if negb loaded then ret (Some 1)
    else
      (* 2. Determine parameter count *)
      match (if decide (3 <= length argv)%nat
             then env_stoull env (default EmptyString (argv !! 2%nat))
             else Some default_param_count) with
      | None => ret None
      | Some param_count =>
          (* 3. Unfold into full model *)
          do (unfolded, model) <- materialize_intelligence env model param_count;
          if negb unfolded then ret (Some 1)
          else
            print (OutModelReady (d_weights model)) ;;
            (* 5. Cleanup *)
            do model <- destroy_model model;
            ret (Some 0)
      end.

(** ** [cbm_core.c]: the seed transform *)

(** [#define PHI 0.618033988749895], as the decimal fraction it is written
    as. [PHI * 255] is 157.5986...; the nearest double is off by less than
    1e-13, far from an integer, so the conversion to [unsigned char]
    truncates it to the same value as the exact quotient. *)
Definition PHI_num : Z := 618033988749895.
Definition PHI_den : Z := 10 ^ 15.

Definition byte_of_Z (z : Z) : byte :=
  default x00 (Byte.of_N (Z.to_N (z mod 256))).

(** [(unsigned char)(PHI * 255)] *)
Definition transmute_key : byte := byte_of_Z ((PHI_num * 255) / PHI_den).

(** [a ^ b] on [unsigned char], stored back into an [unsigned char]. *)
Definition byte_xor (a b : byte) : byte :=
  byte_of_Z (Z.lxor (byte_val a) (byte_val b)).

(** The loop [for (int i = ...; i < size; i++) seed[i] ^= key], with [n]
    iterations left. A store outside the list changes nothing here; in C
    the caller must pass a buffer of at least [size] bytes. *)
Fixpoint transmute_loop (i : nat) (n : nat) (seed : list byte) : list byte :=
  match n with
  | O => seed
  | S n' => transmute_loop (S i) n' (alter (fun b => byte_xor b transmute_key) i seed)
  end.

(** The function returns nothing and ends by printing one fixed line; the
    buffer it leaves is its result here. *)
Definition cbm_holographic_transmute (seed : list byte) (size : Z) : list byte :=
  transmute_loop 0 (Z.to_nat size) seed.

(** ** Fixtures: container files and an environment to run the loader in *)

Fixpoint le_bytes (n : nat) (z : Z) : list byte :=
  match n with
  | O => []
  | S n' => byte_of_Z z :: le_bytes n' (z / 256)
  end.

(** The bytes of a container file, field by field as in the layout. *)
Definition container (ver : Z) (name arch : list byte) (declared : Z)
    (nodes : Z) (payload : list byte) : list byte :=
  take 4 CBM_MAGIC ++ le_bytes 2 ver ++ le_bytes 2 0 ++ le_bytes 8 0
  ++ resize 64 x00 name ++ resize 32 x00 arch
  ++ le_bytes 4 declared ++ le_bytes 4 nodes ++ payload.

Definition name_test : list byte := [x74; x65; x73; x74].
Definition arch_demo : list byte := [x64; x65; x6d; x6f].
Definition seed_1_8 : list byte := [x01; x02; x03; x04; x05; x06; x07; x08].

(** magic, version 1.0, "test", "demo", seed_size 8, seed bytes 1..8 *)
Definition file_ok : list byte :=
  container CBM_VERSION name_test arch_demo 8 0 seed_1_8.

(** the same container with its last byte missing *)
Definition file_short : list byte :=
  container CBM_VERSION name_test arch_demo 8 0 (take 7 seed_1_8).

(** the same container under another magic *)
Definition file_bad_magic : list byte := x47 :: drop 1 file_ok.

(** A device with [capacity] bytes: a request for 1 to [capacity] bytes is
    granted at a fresh non-null address, any other is rejected and nothing
    is stored. *)
Definition device_malloc (capacity : Z) (calls : list cuda_call) (size : Z)
  : cudaError_t * option Z :=
  if decide (0 < size <= capacity)
  then (cudaSuccess, Some (4096 * (1 + Z.of_nat (length calls))))
  else (cudaErrorMemoryAllocation, None).

Definition demo_fs : gmap string (list byte) :=
  <["ok.cbm" := file_ok]> (<["short.cbm" := file_short]>
    (<["bad.cbm" := file_bad_magic]> ∅)).

(** Decimal digits up to the first other character; it throws when there
    is no digit or the number does not fit 64 bits. Leading white space and
    a sign, which [std::stoull] accepts, are not handled: the examples pass
    it plain digits or a word. *)
Fixpoint digits (s : string) (acc : option Z) : option Z :=
  match s with
  | EmptyString => acc
  | String c s' =>
      let d := Z.of_nat (Ascii.nat_of_ascii c) - 48 in
      if decide (0 <= d <= 9) then digits s' (Some (10 * default 0 acc + d))
      else acc
  end.

Definition decimal_stoull (s : string) : option Z :=
  match digits s None with
  | Some z => if decide (z < SIZE_MAX1) then Some z else None
  | None => None
  end.

Definition demo_env (capacity : Z) : environment :=
  {| env_fs := demo_fs;
     env_cudaMalloc := device_malloc capacity;
     env_stoull := decimal_stoull |}.



(** * Derived definitions

    Names for the intermediate values of the functions above, used to state
    what each path through them produces. *)

(** The four characters of [CBM_MAGIC]. *)
Definition magic4 : list byte := take 4 CBM_MAGIC.

(** ** What the three reads of [load_cbm_file] extract from a file holding
    [data], and what they leave in the fields of [model] *)

Definition header_bytes (data : list byte) : list byte :=
  fst (istream_read sizeof_CBMHeader (ifstream_open data)).
Definition after_header (data : list byte) : ifstream :=
  snd (istream_read sizeof_CBMHeader (ifstream_open data)).
Definition header_read (data : list byte) (model : CBM_Model) : CBMHeader :=
  store (header_bytes data) (header model).

Definition metadata_bytes (data : list byte) : list byte :=
  fst (istream_read sizeof_CBMMetadata (after_header data)).
Definition after_metadata (data : list byte) : ifstream :=
  snd (istream_read sizeof_CBMMetadata (after_header data)).
Definition metadata_read (data : list byte) (model : CBM_Model) : CBMMetadata :=
  store (metadata_bytes data) (metadata model).

Definition seed_count (data : list byte) (model : CBM_Model) : nat :=
  Z.to_nat (seed_size (metadata_read data model)).
Definition seed_bytes (data : list byte) (model : CBM_Model) : list byte :=
  fst (istream_read (seed_count data model) (after_metadata data)).
Definition seed_read (data : list byte) (model : CBM_Model) : list byte :=
  store (seed_bytes data model) (resize (seed_count data model) x00 (seed model)).

(** The regions of a container file. *)
Definition file_metadata (data : list byte) : list byte :=
  take sizeof_CBMMetadata (drop sizeof_CBMHeader data).
Definition file_payload (data : list byte) : list byte :=
  drop (sizeof_CBMHeader + sizeof_CBMMetadata) data.

(** ** The calls of [materialize_intelligence] *)

(** The request for the weight buffer and the answer of the runtime. *)
Definition weights_request (param_count : Z) : Z :=
  to_size_t (param_count * sizeof_float).
Definition weights_answer (env : environment) (param_count : Z) (w : world)
  : cudaError_t * option Z :=
  env_cudaMalloc env (cuda w) (weights_request param_count).

(** The Model once that call has returned. *)
Definition after_weights_malloc (env : environment) (model : CBM_Model)
    (param_count : Z) (w : world) : CBM_Model :=
  set_d_weights (default (d_weights model) (snd (weights_answer env param_count w)))
                (set_weight_count param_count model).

Definition weights_call (env : environment) (param_count : Z) (w : world)
  : cuda_call :=
  CallMalloc (weights_request param_count)
             (fst (weights_answer env param_count w))
             (snd (weights_answer env param_count w)).

(** The answer to the request for the staged seed. *)
Definition seed_answer (env : environment) (model : CBM_Model)
    (param_count : Z) (w : world) : cudaError_t * option Z :=
  env_cudaMalloc env (cuda w ++ [weights_call env param_count w])
                 (Z.of_nat (length (seed model))).

(** The device releases among the calls of a trace. *)
Definition is_free (c : cuda_call) : bool :=
  match c with CallFree _ => true | _ => false end.

Definition releases (calls : list cuda_call) : nat :=
  length (List.filter is_free calls).

(** ** The stages of [main] *)

(** The parameter count that [main] settles on: [None] when [std::stoull]
    throws on the third argument. *)
Definition chosen_param_count (env : environment) (argv : list string) : option Z :=
  match argv !! 2%nat with
  | Some s => env_stoull env s
  | None => Some default_param_count
  end.

(** The two stages as [main] runs them. *)
Definition main_load (env : environment) (w : world) (path : string)
  : bool * CBM_Model * world :=
  load_cbm_file env path model_zero (snd (print OutBanner w)).
Definition main_unfold (env : environment) (w : world) (path : string)
    (param_count : Z) : bool * CBM_Model * world :=
  materialize_intelligence env (snd (fst (main_load env w path))) param_count
                           (snd (main_load env w path)).

(** ** The pipeline: any sequence of calls on one Model *)

(** The calls a caller can make on its Model. *)
Inductive pipeline_call :=
  | DoLoad (path : string)
  | DoMaterialize (param_count : Z)
  | DoDestroy.


(** One call; [destroy_model] returns nothing and counts as done. *)
Definition step (env : environment) (c : pipeline_call) (model : CBM_Model)
  : M (bool * CBM_Model) :=
  match c with
  | DoLoad path => load_cbm_file env path model
  | DoMaterialize param_count => materialize_intelligence env model param_count
  | DoDestroy => do model' <- destroy_model model; ret (true, model')
  end.

(** A sequence of calls on one Model; [history] collects each call with
    what it returned, oldest first. *)
Fixpoint run (env : environment) (calls : list pipeline_call)
    (model : CBM_Model) (history : list (pipeline_call * bool))
  : M (CBM_Model * list (pipeline_call * bool)) :=
  match calls with
  | [] => ret (model, history)
  | c :: rest =>
      do (ok, model') <- step env c model;
      run env rest model' (history ++ [(c, ok)])
  end.




(** What the loader relies on from [cudaMalloc]: a granted request stores a
    non-null pointer, a rejected one stores nothing. *)
Definition malloc_contract (env : environment) : Prop :=
  forall calls size err stored,
    env_cudaMalloc env calls size = (err, stored) ->
    (err = cudaSuccess -> exists p, stored = Some p /\ p <> 0) /\
    (err <> cudaSuccess -> stored = None).

(** The parameter count of the latest [materialize_intelligence] call of a
    history, 0 when there is none. *)
Definition requested_step (n : Z) (e : pipeline_call * bool) : Z :=
  match e with
  | (DoMaterialize param_count, _) => param_count
  | _ => n
  end.

Definition last_requested (history : list (pipeline_call * bool)) : Z :=
  foldl requested_step 0 history.

Definition is_materialize (c : pipeline_call) : bool :=
  match c with DoMaterialize _ => true | _ => false end.

(** * Properties *)

(** Runs the bookkeeping of the world monad once the calls are known. *)
Ltac run_world :=
  unfold bind, ret, print, log_read, log_cuda;
  cbn [header metadata seed d_weights weight_count
       set_header set_metadata set_seed set_d_weights set_weight_count
       console reads cuda fst snd].

Ltac solve_read :=
  unfold sizeof_CBMHeader, sizeof_CBMMetadata in *; cbn;
  first [reflexivity | lia].

(** ** Bytes *)

Lemma byte_val_range (b : byte) : 0 <= byte_val b < 256.
Proof.
  unfold byte_val. pose proof (Byte.to_N_bounded b). lia.
Qed.

Lemma byte_val_inj (a b : byte) : byte_val a = byte_val b -> a = b.
Proof.
  unfold byte_val. intros H. apply N2Z.inj in H.
  pose proof (Byte.of_to_N a) as Ha. rewrite H, Byte.of_to_N in Ha.
  congruence.
Qed.

Lemma byte_of_Z_val (b : byte) : byte_of_Z (byte_val b) = b.
Proof.
  unfold byte_of_Z. pose proof (byte_val_range b).
  rewrite Z.mod_small by lia. unfold byte_val.
  rewrite N2Z.id, Byte.of_to_N. reflexivity.
Qed.

Lemma byte_val_of_Z (z : Z) : byte_val (byte_of_Z z) = z mod 256.
Proof.
  unfold byte_of_Z, byte_val.
  pose proof (Z.mod_pos_bound z 256 ltac:(lia)) as Hz.
  destruct (Byte.of_N (Z.to_N (z mod 256))) as [b|] eqn:E; simpl.
  - apply Byte.to_of_N in E. rewrite E. lia.
  - apply Byte.of_N_None_iff in E. lia.
Qed.

Lemma le16_range off l : 0 <= le16 off l < 65536.
Proof.
  unfold le16.
  pose proof (byte_val_range (byte_at off l)).
  pose proof (byte_val_range (byte_at (off + 1) l)). lia.
Qed.

Lemma le32_range off l : 0 <= le32 off l < 2 ^ 32.
Proof.
  unfold le32.
  pose proof (le16_range off l). pose proof (le16_range (off + 2) l). lia.
Qed.

Lemma seed_size_range md : 0 <= seed_size md < 2 ^ 32.
Proof. apply le32_range. Qed.

(** ** [strncmp] against the magic literal *)

Lemma strncmp_differ (c1 c2 : byte) : c1 <> c2 -> byte_val c1 - byte_val c2 <> 0.
Proof. intros Hne Hz. apply Hne, byte_val_inj. lia. Qed.

Lemma strncmp_magic (h : list byte) :
  strncmp (magic h) CBM_MAGIC 4 = 0 <-> take 4 h = magic4.
Proof.
  unfold magic, magic4, CBM_MAGIC.
  destruct h as [|b0 [|b1 [|b2 [|b3 t]]]]; cbn [take strncmp tail];
    unfold byte_at; cbn [lookup list_lookup default from_option id];
    repeat (case_decide; subst; try discriminate);
    try (split; [intros Hz; exfalso; revert Hz; apply strncmp_differ; congruence
                | intros He; exfalso; congruence]).
  - rewrite take_0. split; reflexivity.
Qed.

(** ** [istream::read] and [store] *)

Lemma length_store (got dst : list byte) :
  (length got <= length dst)%nat -> length (store got dst) = length dst.
Proof.
  intros H. unfold store. rewrite length_app, length_drop. lia.
Qed.

Lemma istream_read_length n f :
  (length (fst (istream_read n f)) <= n)%nat.
Proof.
  unfold istream_read. destruct (good f); simpl.
  - rewrite length_take. lia.
  - lia.
Qed.

Lemma istream_read_gpos n f :
  gpos (snd (istream_read n f)) = (gpos f + length (fst (istream_read n f)))%nat.
Proof.
  unfold istream_read. destruct (good f); simpl; lia.
Qed.

(** A read that the file can satisfy leaves the stream good. *)
Lemma istream_read_full n f :
  good f = true -> (gpos f + n <= length (contents f))%nat ->
  istream_read n f =
    (take n (drop (gpos f) (contents f)),
     {| contents := contents f; gpos := (gpos f + n)%nat; good := true |}).
Proof.
  intros Hg Hn. unfold istream_read. rewrite Hg.
  assert (Hl : length (take n (drop (gpos f) (contents f))) = n).
  { rewrite length_take, length_drop. lia. }
  rewrite Hl. rewrite bool_decide_eq_true_2 by reflexivity. reflexivity.
Qed.

(** ** [load_cbm_file], path by path *)

Section load.
Variable env : environment.
Variable path : string.
Variable model : CBM_Model.
Variable w : world.

Lemma load_cbm_file_unopened :
  env_fs env !! path = None ->
  load_cbm_file env path model w =
    ((false, model),
     {| console := console w ++ [ErrFailedToOpen path];
        reads := reads w; cuda := cuda w |}).
Proof.
  intros Hfs. unfold load_cbm_file. rewrite Hfs. reflexivity.
Qed.

Variable data : list byte.
Hypothesis Hopen : env_fs env !! path = Some data.

Lemma load_cbm_file_bad_magic :
  take 4 (header_read data model) <> magic4 ->
  load_cbm_file env path model w =
    ((false, set_header (header_read data model) model),
     {| console := console w ++ [ErrBadMagic];
        reads := reads w ++ [(sizeof_CBMHeader, length (header_bytes data))];
        cuda := cuda w |}).
Proof.
  intros Hm. unfold load_cbm_file. rewrite Hopen.
  unfold read_into at 1.
  rewrite (surjective_pairing (istream_read sizeof_CBMHeader _)).
  fold (header_bytes data) (after_header data). run_world.
  fold (header_read data model).
  rewrite decide_True by (rewrite strncmp_magic; exact Hm).
  reflexivity.
Qed.

Lemma load_cbm_file_good_magic :
  take 4 (header_read data model) = magic4 ->
  load_cbm_file env path model w =
    ((true,
      {| header := header_read data model;
         metadata := metadata_read data model;
         seed := seed_read data model;
         d_weights := d_weights model;
         weight_count := weight_count model |}),
     {| console := console w ++
          [OutVersion (Z.shiftr (version (header_read data model)) 8)
                      (Z.land (version (header_read data model)) 255);
           OutModel (c_str (metadata_read data model));
           OutArchitecture (c_str (drop 64 (metadata_read data model)));
           OutSeedSize (seed_size (metadata_read data model))];
        reads := reads w ++
          [(sizeof_CBMHeader, length (header_bytes data));
           (sizeof_CBMMetadata, length (metadata_bytes data));
           (seed_count data model, length (seed_bytes data model))];
        cuda := cuda w |}).
Proof.
  intros Hm. unfold load_cbm_file. rewrite Hopen.
  unfold read_into at 1.
  rewrite (surjective_pairing (istream_read sizeof_CBMHeader _)).
  fold (header_bytes data) (after_header data). run_world.
  fold (header_read data model).
  rewrite decide_False by (rewrite strncmp_magic; tauto).
  unfold read_into at 1.
  rewrite (surjective_pairing (istream_read sizeof_CBMMetadata _)).
  fold (metadata_bytes data) (after_metadata data). run_world.
  fold (metadata_read data model). fold (seed_count data model).
  unfold read_into.
  rewrite (surjective_pairing (istream_read (seed_count data model) _)).
  fold (seed_bytes data model). run_world. fold (seed_read data model).
  rewrite <- !app_assoc. reflexivity.
Qed.

Lemma length_seed_read :
  length (seed_read data model) = seed_count data model.
Proof.
  unfold seed_read. rewrite length_store; rewrite length_resize; [reflexivity|].
  apply istream_read_length.
Qed.

End load.

Lemma header_bytes_take data : header_bytes data = take sizeof_CBMHeader data.
Proof. reflexivity. Qed.

Lemma take4_header_read data model :
  (4 <= length data)%nat -> take 4 (header_read data model) = take 4 data.
Proof.
  intros Hlen. unfold header_read, store. rewrite header_bytes_take.
  rewrite take_app_le by (rewrite length_take; unfold sizeof_CBMHeader; lia).
  rewrite take_take. reflexivity.
Qed.

Lemma magic4_length data : take 4 data = magic4 -> (4 <= length data)%nat.
Proof.
  intros H. apply (f_equal length) in H. rewrite length_take in H.
  change (length magic4) with 4%nat in H. lia.
Qed.

Lemma byte_at_app_l i (l1 l2 : list byte) :
  (i < length l1)%nat -> byte_at i (l1 ++ l2) = byte_at i l1.
Proof. intros H. unfold byte_at. rewrite lookup_app_l by exact H. reflexivity. Qed.

Lemma le32_app_l off (l1 l2 : list byte) :
  (off + 3 < length l1)%nat -> le32 off (l1 ++ l2) = le32 off l1.
Proof.
  intros H. unfold le32, le16. rewrite !byte_at_app_l by lia. reflexivity.
Qed.

Lemma after_header_full data :
  (sizeof_CBMHeader <= length data)%nat ->
  after_header data =
    {| contents := data; gpos := sizeof_CBMHeader; good := true |}.
Proof.
  intros H. unfold after_header.
  rewrite istream_read_full by solve_read.
  reflexivity.
Qed.

Section complete_metadata.
Variable data : list byte.
Variable model : CBM_Model.
Hypothesis Hlen : (sizeof_CBMHeader + sizeof_CBMMetadata <= length data)%nat.

Lemma metadata_bytes_full : metadata_bytes data = file_metadata data.
Proof.
  unfold metadata_bytes. rewrite after_header_full by lia.
  rewrite istream_read_full by solve_read.
  reflexivity.
Qed.

Lemma after_metadata_full :
  after_metadata data =
    {| contents := data; gpos := sizeof_CBMHeader + sizeof_CBMMetadata;
       good := true |}.
Proof.
  unfold after_metadata. rewrite after_header_full by lia.
  rewrite istream_read_full by solve_read.
  reflexivity.
Qed.

Lemma length_file_metadata : length (file_metadata data) = sizeof_CBMMetadata.
Proof.
  unfold file_metadata. rewrite length_take, length_drop.
  unfold sizeof_CBMHeader, sizeof_CBMMetadata in *. lia.
Qed.

Lemma seed_size_metadata_read :
  seed_size (metadata_read data model) = seed_size (file_metadata data).
Proof.
  unfold metadata_read, store, seed_size. rewrite metadata_bytes_full.
  apply le32_app_l. rewrite length_file_metadata.
  unfold sizeof_CBMMetadata. lia.
Qed.

Lemma seed_bytes_full :
  seed_bytes data model = take (seed_count data model) (file_payload data).
Proof.
  unfold seed_bytes. rewrite after_metadata_full.
  unfold istream_read. reflexivity.
Qed.
End complete_metadata.

(** Whatever the file, [load_cbm_file] leaves the device handle and the
    weight count of the Model as they were. *)
Lemma load_cbm_file_inv env path model w ok model' w' :
  load_cbm_file env path model w = ((ok, model'), w') ->
  d_weights model' = d_weights model /\ weight_count model' = weight_count model /\
  cuda w' = cuda w /\
  (ok = true ->
   exists data, env_fs env !! path = Some data /\
     take 4 (header_read data model) = magic4 /\
     metadata model' = metadata_read data model /\
     seed model' = seed_read data model).
Proof.
  intros Hrun.
  destruct (env_fs env !! path) as [data|] eqn:Hfs.
  - destruct (decide (take 4 (header_read data model) = magic4)) as [Hm|Hm].
    + rewrite (load_cbm_file_good_magic env path model w data Hfs Hm) in Hrun.
      inversion Hrun; subst; clear Hrun. cbn. repeat split; try reflexivity.
      intros _. exists data. repeat split; assumption || reflexivity.
    + rewrite (load_cbm_file_bad_magic env path model w data Hfs Hm) in Hrun.
      inversion Hrun; subst; clear Hrun. cbn. repeat split; try reflexivity.
      discriminate.
  - rewrite (load_cbm_file_unopened env path model w Hfs) in Hrun.
    inversion Hrun; subst; clear Hrun. cbn. repeat split; try reflexivity.
    discriminate.
Qed.

(** With four bytes that are not the magic, the run ends in the bad-magic
    return. *)
Lemma bad_magic_returns_false env path data model w :
  env_fs env !! path = Some data ->
  (4 <= length data)%nat ->
  take 4 data <> magic4 ->
  exists model' w', load_cbm_file env path model w = ((false, model'), w').
Proof.
  intros Hfs Hlen Hmagic.
  assert (Hm : take 4 (header_read data model) <> magic4)
    by (rewrite take4_header_read by exact Hlen; exact Hmagic).
  eexists _, _.
  exact (load_cbm_file_bad_magic env path model w data Hfs Hm).
Qed.

(** C4: a file whose first four bytes are not the magic literal makes
    [load_cbm_file] return false with the bad-magic diagnostic; the only
    read issued is the one of the 16-byte header block (no metadata read, no
    seed read), and of the Model only the header field has been written:
    metadata, seed, device handle and weight count are as before. *)
Theorem load_cbm_file_rejects_bad_magic env path data model w :
  env_fs env !! path = Some data ->
  (4 <= length data)%nat ->
  take 4 data <> magic4 ->
  exists model' w',
    load_cbm_file env path model w = ((false, model'), w') /\
    console w' = console w ++ [ErrBadMagic] /\
    reads w' = reads w ++
      [(sizeof_CBMHeader, Nat.min sizeof_CBMHeader (length data))] /\
    metadata model' = metadata model /\ seed model' = seed model /\
    d_weights model' = d_weights model /\
    weight_count model' = weight_count model.
Proof.
  intros Hfs Hlen Hmagic.
  assert (Hm : take 4 (header_read data model) <> magic4)
    by (rewrite take4_header_read by exact Hlen; exact Hmagic).
  eexists _, _. split.
  { exact (load_cbm_file_bad_magic env path model w data Hfs Hm). }
  cbn. rewrite header_bytes_take, length_take. repeat split; reflexivity.
Qed.

Lemma load_cbm_file_rejects_bad_magic_witness :
  exists model' w',
    load_cbm_file (demo_env 1000) "bad.cbm" model_zero world_zero
      = ((false, model'), w') /\
    console w' = console world_zero ++ [ErrBadMagic] /\
    reads w' = reads world_zero ++
      [(sizeof_CBMHeader, Nat.min sizeof_CBMHeader (length file_bad_magic))] /\
    metadata model' = metadata model_zero /\ seed model' = seed model_zero /\
    d_weights model' = d_weights model_zero /\
    weight_count model' = weight_count model_zero.
Proof.
  apply (load_cbm_file_rejects_bad_magic (demo_env 1000) "bad.cbm"
           file_bad_magic model_zero world_zero).
  - reflexivity.
  - vm_compute. lia.
  - vm_compute. discriminate.
Defined.

(** A file too short to hold four bytes is rejected in the same way when
    the Model is the zero-initialised one of [main]. *)
Lemma load_cbm_file_rejects_short_header env path data w :
  env_fs env !! path = Some data ->
  (length data < 4)%nat ->
  fst (fst (load_cbm_file env path model_zero w)) = false.
Proof.
  intros Hfs Hlen.
  rewrite (load_cbm_file_bad_magic env path model_zero w data Hfs); [reflexivity|].
  unfold header_read, store. rewrite header_bytes_take.
  intros Hm. apply (f_equal (fun l => l !! 3%nat)) in Hm.
  rewrite lookup_take_lt in Hm by lia.
  rewrite lookup_app_r in Hm by (rewrite length_take; lia).
  rewrite lookup_drop in Hm.
  cbn [model_zero header] in Hm.
  rewrite lookup_replicate_2 in Hm
    by (rewrite length_take; unfold sizeof_CBMHeader; lia).
  discriminate Hm.
Qed.

(** C5: when [load_cbm_file] succeeds on the zero-initialised Model that
    [main] hands it, the seed buffer of the Model is exactly
    [metadata.seed_size] bytes long, the device handle is null and the
    weight count is 0. *)
Theorem load_cbm_file_success_shape env path w model' w' :
  load_cbm_file env path model_zero w = ((true, model'), w') ->
  Z.of_nat (length (seed model')) = seed_size (metadata model') /\
  d_weights model' = 0 /\
  weight_count model' = 0.
Proof.
  intros Hrun.
  destruct (load_cbm_file_inv _ _ _ _ _ _ _ Hrun) as (Hd & Hc & _ & Hok).
  destruct (Hok eq_refl) as (data & Hfs & Hm & Hmd & Hsd).
  split; [|split; assumption].
  rewrite Hsd, Hmd, length_seed_read. unfold seed_count.
  pose proof (seed_size_range (metadata_read data model_zero)). lia.
Qed.

Lemma load_cbm_file_success_shape_witness :
  let r := load_cbm_file (demo_env 1000) "ok.cbm" model_zero world_zero in
  r = ((true, snd (fst r)), snd r) /\
  Z.of_nat (length (seed (snd (fst r)))) = seed_size (metadata (snd (fst r))) /\
  d_weights (snd (fst r)) = 0 /\
  weight_count (snd (fst r)) = 0.
Proof.
  cbv zeta. split; [vm_compute; reflexivity|].
  apply (load_cbm_file_success_shape (demo_env 1000) "ok.cbm" world_zero
           (snd (fst (load_cbm_file (demo_env 1000) "ok.cbm" model_zero world_zero)))
           (snd (load_cbm_file (demo_env 1000) "ok.cbm" model_zero world_zero))).
  vm_compute. reflexivity.
Defined.

(** ** The version field *)

Lemma shiftr8_le16 off l : Z.shiftr (le16 off l) 8 = byte_val (byte_at (off + 1) l).
Proof.
  unfold le16. rewrite Z.shiftr_div_pow2 by lia.
  pose proof (byte_val_range (byte_at off l)).
  change (2 ^ 8) with 256.
  rewrite Z.add_comm, Z.mul_comm, Z.div_add_l by lia.
  rewrite Z.div_small by lia. lia.
Qed.

Lemma land255_le16 off l : Z.land (le16 off l) 255 = byte_val (byte_at off l).
Proof.
  unfold le16. change 255 with (Z.ones 8). rewrite Z.land_ones by lia.
  pose proof (byte_val_range (byte_at off l)).
  change (2 ^ 8) with 256.
  replace (byte_val (byte_at off l) + 256 * byte_val (byte_at (off + 1) l))
    with (byte_val (byte_at off l) + byte_val (byte_at (off + 1) l) * 256) by lia.
  rewrite Z.mod_add by lia.
  apply Z.mod_small. lia.
Qed.

Lemma version_header_read data model :
  (6 <= length data)%nat -> version (header_read data model) = le16 4 data.
Proof.
  intros Hlen. unfold version, header_read, store. rewrite header_bytes_take.
  unfold le16.
  rewrite !byte_at_app_l
    by (rewrite length_take; unfold sizeof_CBMHeader; lia).
  unfold byte_at, sizeof_CBMHeader. rewrite !lookup_take_lt by lia. reflexivity.
Qed.

(** C9: once the magic matches, [load_cbm_file] succeeds whatever the
    version field holds, and the first line it prints is the version as the
    pair (version >> 8, version & 0xFF): the major number is the high byte
    of the 16-bit field and the minor number its low byte, so that 0x0100
    is shown as 1.0. The field is bytes 4 and 5 of the file when the file
    has them. *)
Theorem load_cbm_file_version env path data model w :
  env_fs env !! path = Some data ->
  take 4 data = magic4 ->
  exists model' w',
    load_cbm_file env path model w = ((true, model'), w') /\
    console w' !! length (console w) =
      Some (OutVersion (Z.shiftr (version (header model')) 8)
                       (Z.land (version (header model')) 255)) /\
    Z.shiftr (version (header model')) 8 = byte_val (byte_at 5 (header model')) /\
    Z.land (version (header model')) 255 = byte_val (byte_at 4 (header model')) /\
    version (header model') =
      256 * Z.shiftr (version (header model')) 8
      + Z.land (version (header model')) 255 /\
    (version (header model') = CBM_VERSION ->
     console w' !! length (console w) = Some (OutVersion 1 0)) /\
    ((6 <= length data)%nat -> version (header model') = le16 4 data).
Proof.
  intros Hfs Hmagic.
  assert (Hm : take 4 (header_read data model) = magic4).
  { rewrite take4_header_read; [exact Hmagic | exact (magic4_length data Hmagic)]. }
  eexists _, _. split.
  { exact (load_cbm_file_good_magic env path model w data Hfs Hm). }
  cbn [header console].
  split.
  { rewrite lookup_app_r by lia. rewrite Nat.sub_diag. reflexivity. }
  split; [apply (shiftr8_le16 4)|].
  split; [apply (land255_le16 4)|].
  split.
  { unfold version at 1. rewrite (shiftr8_le16 4), (land255_le16 4).
    unfold le16. lia. }
  split.
  { intros Hv. rewrite lookup_app_r by lia. rewrite Nat.sub_diag, Hv.
    reflexivity. }
  apply version_header_read.
Qed.

Lemma load_cbm_file_version_witness :
  env_fs (demo_env 1000) !! "ok.cbm" = Some file_ok /\
  take 4 file_ok = magic4 /\
  exists model' w',
    load_cbm_file (demo_env 1000) "ok.cbm" model_zero world_zero
      = ((true, model'), w') /\
    console w' !! length (console world_zero) =
      Some (OutVersion (Z.shiftr (version (header model')) 8)
                       (Z.land (version (header model')) 255)) /\
    Z.shiftr (version (header model')) 8 = byte_val (byte_at 5 (header model')) /\
    Z.land (version (header model')) 255 = byte_val (byte_at 4 (header model')) /\
    version (header model') =
      256 * Z.shiftr (version (header model')) 8
      + Z.land (version (header model')) 255 /\
    (version (header model') = CBM_VERSION ->
     console w' !! length (console world_zero) = Some (OutVersion 1 0)) /\
    ((6 <= length file_ok)%nat -> version (header model') = le16 4 file_ok).
Proof.
  split; [reflexivity|]. split; [vm_compute; reflexivity|].
  apply (load_cbm_file_version (demo_env 1000) "ok.cbm" file_ok
           model_zero world_zero).
  - reflexivity.
  - vm_compute. reflexivity.
Defined.

(** The container of the fixtures carries version 0x0100 and is announced
    as 1.0. *)
Example load_file_ok_version :
  version (header (snd (fst
    (load_cbm_file (demo_env 1000) "ok.cbm" model_zero world_zero)))) = 256 /\
  console (snd (load_cbm_file (demo_env 1000) "ok.cbm" model_zero world_zero))
    !! 0%nat = Some (OutVersion 1 0).
Proof. vm_compute. split; reflexivity. Qed.

(** ** A payload shorter than declared *)

(** C1, as the loader behaves: the file is not checked against the
    declared [seed_size]. *)
Lemma load_cbm_file_short_counterexample :
  Z.of_nat (length (file_payload file_short)) = 7 /\
  seed_size (file_metadata file_short) = 8 /\
  fst (fst (load_cbm_file (demo_env 1000) "short.cbm" model_zero world_zero))
    = true /\
  seed (snd (fst (load_cbm_file (demo_env 1000) "short.cbm" model_zero world_zero)))
    = [x01; x02; x03; x04; x05; x06; x07; x00].
Proof.
  vm_compute. repeat split; reflexivity.
Qed.

(** C1 (amended): for a file with the right magic and a complete metadata
    block whose payload is shorter than the declared [seed_size],
    [load_cbm_file] returns true and prints no diagnostic; the seed buffer
    has the declared length, starts with the bytes the file still had and
    ends with what [resize] left there, zero bytes when the Model came
    with an empty seed. *)
Theorem load_cbm_file_short_payload env path data model w :
  env_fs env !! path = Some data ->
  take 4 data = magic4 ->
  (sizeof_CBMHeader + sizeof_CBMMetadata <= length data)%nat ->
  Z.of_nat (length (file_payload data)) < seed_size (file_metadata data) ->
  exists model' w',
    load_cbm_file env path model w = ((true, model'), w') /\
    seed_size (metadata model') = seed_size (file_metadata data) /\
    Z.of_nat (length (seed model')) = seed_size (metadata model') /\
    seed model' =
      file_payload data ++
      drop (length (file_payload data))
           (resize (Z.to_nat (seed_size (file_metadata data))) x00 (seed model)) /\
    (seed model = [] ->
     seed model' =
       file_payload data ++
       replicate (Z.to_nat (seed_size (file_metadata data))
                  - length (file_payload data)) x00) /\
    console w' = console w ++
      [OutVersion (Z.shiftr (version (header model')) 8)
                  (Z.land (version (header model')) 255);
       OutModel (c_str (metadata model'));
       OutArchitecture (c_str (drop 64 (metadata model')));
       OutSeedSize (seed_size (metadata model'))].
Proof.
  intros Hfs Hmagic Hlen Hshort.
  assert (Hm : take 4 (header_read data model) = magic4).
  { rewrite take4_header_read; [exact Hmagic|].
    unfold sizeof_CBMHeader, sizeof_CBMMetadata in Hlen. lia. }
  eexists _, _. split.
  { exact (load_cbm_file_good_magic env path model w data Hfs Hm). }
  cbn [metadata seed header console].
  pose proof (seed_size_metadata_read data model Hlen) as Hsz.
  assert (Hsd : seed_read data model =
    file_payload data ++
    drop (length (file_payload data))
         (resize (Z.to_nat (seed_size (file_metadata data))) x00 (seed model))).
  { unfold seed_read, store. rewrite (seed_bytes_full data model Hlen).
    unfold seed_count. rewrite Hsz.
    rewrite take_ge by lia. reflexivity. }
  split; [exact Hsz|].
  split.
  { rewrite length_seed_read. unfold seed_count.
    pose proof (seed_size_range (metadata_read data model)). lia. }
  split; [exact Hsd|].
  split; [|reflexivity].
  intros Hnil. rewrite Hsd, Hnil. f_equal.
  rewrite resize_nil, drop_replicate. reflexivity.
Qed.

Lemma load_cbm_file_short_payload_witness :
  exists model' w',
    load_cbm_file (demo_env 1000) "short.cbm" model_zero world_zero
      = ((true, model'), w') /\
    seed_size (metadata model') = seed_size (file_metadata file_short) /\
    Z.of_nat (length (seed model')) = seed_size (metadata model') /\
    seed model' =
      file_payload file_short ++
      drop (length (file_payload file_short))
           (resize (Z.to_nat (seed_size (file_metadata file_short))) x00
                   (seed model_zero)) /\
    (seed model_zero = [] ->
     seed model' =
       file_payload file_short ++
       replicate (Z.to_nat (seed_size (file_metadata file_short))
                  - length (file_payload file_short)) x00) /\
    console w' = console world_zero ++
      [OutVersion (Z.shiftr (version (header model')) 8)
                  (Z.land (version (header model')) 255);
       OutModel (c_str (metadata model'));
       OutArchitecture (c_str (drop 64 (metadata model')));
       OutSeedSize (seed_size (metadata model'))].
Proof.
  apply (load_cbm_file_short_payload (demo_env 1000) "short.cbm" file_short
           model_zero world_zero).
  - reflexivity.
  - vm_compute. reflexivity.
  - vm_compute. lia.
  - vm_compute. reflexivity.
Defined.

(** ** [materialize_intelligence], path by path *)

Section materialize.
Variable env : environment.
Variable model : CBM_Model.
Variable param_count : Z.
Variable w : world.

Lemma materialize_rejected :
  fst (weights_answer env param_count w) <> cudaSuccess ->
  materialize_intelligence env model param_count w =
    ((false, after_weights_malloc env model param_count w),
     {| console := console w ++
          [OutUnfolding; OutTargetParameters param_count;
           ErrVRAMAllocationFailed (fst (weights_answer env param_count w))];
        reads := reads w;
        cuda := cuda w ++ [weights_call env param_count w] |}).
Proof.
  intros Herr. unfold materialize_intelligence, cudaMalloc.
  run_world. fold (weights_request param_count).
  fold (weights_answer env param_count w).
  rewrite (surjective_pairing (weights_answer env param_count w)). run_world.
  rewrite decide_True by exact Herr. run_world.
  rewrite <- !app_assoc. reflexivity.
Qed.

Lemma materialize_granted :
  fst (weights_answer env param_count w) = cudaSuccess ->
  materialize_intelligence env model param_count w =
    ((true, after_weights_malloc env model param_count w),
     {| console := console w ++
          [OutUnfolding; OutTargetParameters param_count;
           OutLaunching (blocks param_count) threads;
           OutMaterializationComplete];
        reads := reads w;
        cuda := cuda w ++
          [weights_call env param_count w;
           CallMalloc (Z.of_nat (length (seed model)))
                      (fst (seed_answer env model param_count w))
                      (snd (seed_answer env model param_count w));
           CallMemcpyHostToDevice (snd (seed_answer env model param_count w))
                                  (seed model) (Z.of_nat (length (seed model)));
           CallFree (snd (seed_answer env model param_count w))] |}).
Proof.
  intros Herr. unfold materialize_intelligence, cudaMalloc.
  run_world. fold (weights_request param_count).
  fold (weights_answer env param_count w).
  rewrite (surjective_pairing (weights_answer env param_count w)). run_world.
  rewrite decide_False by (rewrite Herr; intros H; apply H; reflexivity).
  unfold cudaMemcpyHostToDevice, cudaFree. run_world.
  change (CallMalloc (weights_request param_count)
                     (fst (weights_answer env param_count w))
                     (snd (weights_answer env param_count w)))
    with (weights_call env param_count w).
  fold (seed_answer env model param_count w).
  rewrite (surjective_pairing (seed_answer env model param_count w)). run_world.
  rewrite <- !app_assoc. reflexivity.
Qed.

(** The function returns true exactly when the first allocation is
    granted. *)
Lemma materialize_result :
  fst (fst (materialize_intelligence env model param_count w))
  = bool_decide (fst (weights_answer env param_count w) = cudaSuccess).
Proof.
  destruct (decide (fst (weights_answer env param_count w) = cudaSuccess))
    as [H|H].
  - rewrite (materialize_granted H), bool_decide_eq_true_2 by exact H.
    reflexivity.
  - rewrite (materialize_rejected H), bool_decide_eq_false_2 by exact H.
    reflexivity.
Qed.

Lemma materialize_model :
  snd (fst (materialize_intelligence env model param_count w))
  = after_weights_malloc env model param_count w.
Proof.
  destruct (decide (fst (weights_answer env param_count w) = cudaSuccess))
    as [H|H].
  - rewrite (materialize_granted H). reflexivity.
  - rewrite (materialize_rejected H). reflexivity.
Qed.

End materialize.

(** ** [destroy_model], path by path *)

Lemma destroy_model_absent model w :
  d_weights model = 0 ->
  destroy_model model w = (set_seed [] model, w).
Proof.
  intros H. unfold destroy_model. rewrite decide_False by (rewrite H; lia).
  reflexivity.
Qed.

Lemma destroy_model_present model w :
  d_weights model <> 0 ->
  destroy_model model w =
    (set_seed [] (set_d_weights 0 model),
     {| console := console w; reads := reads w;
        cuda := cuda w ++ [CallFree (Some (d_weights model))] |}).
Proof.
  intros H. unfold destroy_model. rewrite decide_True by exact H.
  reflexivity.
Qed.

Lemma destroy_model_d_weights model w : d_weights (fst (destroy_model model w)) = 0.
Proof.
  destruct (decide (d_weights model = 0)) as [H|H].
  - rewrite destroy_model_absent by exact H. exact H.
  - rewrite destroy_model_present by exact H. reflexivity.
Qed.

(** ** A rejected allocation *)

(** C3, as the loader behaves: the weight count is assigned before the
    allocation is attempted, so the Model that comes back from a rejected
    allocation records [param_count] parameters although it has no handle. *)
Lemma materialize_rejected_counterexample :
  fst (fst (materialize_intelligence (demo_env 10) model_zero 16 world_zero))
    = false /\
  console (snd (materialize_intelligence (demo_env 10) model_zero 16 world_zero))
    = [OutUnfolding; OutTargetParameters 16;
       ErrVRAMAllocationFailed cudaErrorMemoryAllocation] /\
  d_weights (snd (fst
    (materialize_intelligence (demo_env 10) model_zero 16 world_zero))) = 0 /\
  weight_count (snd (fst
    (materialize_intelligence (demo_env 10) model_zero 16 world_zero))) = 16.
Proof.
  vm_compute. repeat split; reflexivity.
Qed.

(** C3 (amended): when [materialize_intelligence] returns false, the
    rejected [cudaMalloc] is the only call it has made to the device: no
    seed was staged and the loader attached nothing. The handle field holds
    what the runtime stored through it, and what it held before when the
    runtime stored nothing; a Model that came without a handle is then still
    without one. Header, metadata and seed are untouched. *)
Theorem materialize_rejected_handle env model param_count w model' w' :
  materialize_intelligence env model param_count w = ((false, model'), w') ->
  exists err stored,
    err <> cudaSuccess /\
    env_cudaMalloc env (cuda w) (to_size_t (param_count * sizeof_float))
      = (err, stored) /\
    cuda w' = cuda w ++
      [CallMalloc (to_size_t (param_count * sizeof_float)) err stored] /\
    d_weights model' = default (d_weights model) stored /\
    (stored = None -> d_weights model' = d_weights model) /\
    (stored = None -> d_weights model = 0 -> d_weights model' = 0) /\
    header model' = header model /\ metadata model' = metadata model /\
    seed model' = seed model.
Proof.
  intros Hrun.
  destruct (decide (fst (weights_answer env param_count w) = cudaSuccess))
    as [Hok|Herr].
  - rewrite (materialize_granted env model param_count w Hok) in Hrun.
    discriminate Hrun.
  - rewrite (materialize_rejected env model param_count w Herr) in Hrun.
    inversion Hrun; subst; clear Hrun.
    exists (fst (weights_answer env param_count w)),
           (snd (weights_answer env param_count w)).
    split; [exact Herr|].
    split; [apply surjective_pairing|].
    split; [reflexivity|].
    split; [reflexivity|].
    split; [intros Hs; cbn; rewrite Hs; reflexivity|].
    split; [intros Hs Hz; cbn; rewrite Hs; exact Hz|].
    repeat split; reflexivity.
Qed.

Lemma materialize_rejected_handle_witness :
  exists err stored,
    err <> cudaSuccess /\
    env_cudaMalloc (demo_env 10) (cuda world_zero) (to_size_t (16 * sizeof_float))
      = (err, stored) /\
    cuda (snd (materialize_intelligence (demo_env 10) model_zero 16 world_zero))
      = cuda world_zero ++
        [CallMalloc (to_size_t (16 * sizeof_float)) err stored] /\
    d_weights (snd (fst
      (materialize_intelligence (demo_env 10) model_zero 16 world_zero)))
      = default (d_weights model_zero) stored /\
    (stored = None ->
     d_weights (snd (fst
       (materialize_intelligence (demo_env 10) model_zero 16 world_zero)))
     = d_weights model_zero) /\
    (stored = None -> d_weights model_zero = 0 ->
     d_weights (snd (fst
       (materialize_intelligence (demo_env 10) model_zero 16 world_zero))) = 0) /\
    header (snd (fst
      (materialize_intelligence (demo_env 10) model_zero 16 world_zero)))
      = header model_zero /\
    metadata (snd (fst
      (materialize_intelligence (demo_env 10) model_zero 16 world_zero)))
      = metadata model_zero /\
    seed (snd (fst
      (materialize_intelligence (demo_env 10) model_zero 16 world_zero)))
      = seed model_zero.
Proof.
  apply (materialize_rejected_handle (demo_env 10) model_zero 16 world_zero).
  vm_compute. reflexivity.
Defined.

(** ** The launch geometry *)

Lemma blocks_in_range param_count :
  0 <= param_count <= 2 ^ 39 - 256 ->
  blocks param_count = (param_count + 255) / 256.
Proof.
  intros Hr. unfold blocks, to_int, to_size_t, threads, SIZE_MAX1.
  rewrite (Z.mod_small 256) by lia.
  rewrite (Z.mod_small (param_count + 256)) by lia.
  rewrite (Z.mod_small (param_count + 256 - 1)) by lia.
  replace (param_count + 256 - 1) with (param_count + 255) by lia.
  assert (0 <= (param_count + 255) / 256 < 2 ^ 31).
  { split; [apply Z.div_pos; lia|].
    apply Z.div_lt_upper_bound; lia. }
  rewrite Z.mod_small by lia. lia.
Qed.

(** C6, as the loader behaves: the sum is taken in [size_t] and the
    quotient is cut to an [int], so a large parameter count gets fewer
    blocks than it needs (here one block of 256 for more than 2^62
    parameters, on a device that grants the 4 bytes the wrapped size asks
    for). *)
Lemma blocks_counterexample :
  fst (fst (materialize_intelligence (demo_env 1000) model_zero (2 ^ 62 + 1)
                                     world_zero)) = true /\
  console (snd (materialize_intelligence (demo_env 1000) model_zero (2 ^ 62 + 1)
                                         world_zero))
    = [OutUnfolding; OutTargetParameters (2 ^ 62 + 1);
       OutLaunching 1 256; OutMaterializationComplete] /\
  blocks (2 ^ 62 + 1) = 1 /\
  256 * blocks (2 ^ 62 + 1) < 2 ^ 62 + 1.
Proof.
  vm_compute. repeat split; reflexivity.
Qed.

(** C6 (amended): for a parameter count of at most 2^39 - 256, the largest
    whose block count fits an [int], the launch geometry that
    [materialize_intelligence] prints when it succeeds is one-dimensional:
    256 threads per block and ceil(param_count / 256) blocks, the least
    number of blocks of 256 that covers [param_count]. 1000 parameters get
    4 blocks. *)
Theorem materialize_launch_geometry env model param_count w model' w' :
  0 <= param_count <= 2 ^ 39 - 256 ->
  materialize_intelligence env model param_count w = ((true, model'), w') ->
  console w' = console w ++
    [OutUnfolding; OutTargetParameters param_count;
     OutLaunching (blocks param_count) threads; OutMaterializationComplete] /\
  threads = 256 /\
  param_count <= threads * blocks param_count < param_count + threads /\
  blocks 1000 = 4.
Proof.
  intros Hr Hrun.
  destruct (decide (fst (weights_answer env param_count w) = cudaSuccess))
    as [Hok|Herr].
  - rewrite (materialize_granted env model param_count w Hok) in Hrun.
    inversion Hrun; subst; clear Hrun.
    split; [reflexivity|]. split; [reflexivity|].
    split; [|reflexivity].
    rewrite (blocks_in_range param_count Hr). unfold threads.
    pose proof (Z.div_mod (param_count + 255) 256 ltac:(lia)).
    pose proof (Z.mod_pos_bound (param_count + 255) 256 ltac:(lia)). lia.
  - rewrite (materialize_rejected env model param_count w Herr) in Hrun.
    discriminate Hrun.
Qed.

Lemma materialize_launch_geometry_witness :
  console (snd (materialize_intelligence (demo_env 10000) model_zero 1000 world_zero))
    = console world_zero ++
      [OutUnfolding; OutTargetParameters 1000;
       OutLaunching (blocks 1000) threads; OutMaterializationComplete] /\
  threads = 256 /\
  1000 <= threads * blocks 1000 < 1000 + threads /\
  blocks 1000 = 4.
Proof.
  apply (materialize_launch_geometry (demo_env 10000) model_zero 1000 world_zero
           (snd (fst (materialize_intelligence (demo_env 10000) model_zero 1000
                                               world_zero)))).
  - lia.
  - vm_compute. reflexivity.
Defined.

(** ** [destroy_model] twice *)

(** C7: [destroy_model] on a Model without a device handle calls nothing on
    the device and leaves the world as it was (it only clears the seed); a
    second [destroy_model] right after a first changes neither the Model nor
    the world. The two calls together release the handle the Model had, once,
    and nothing else, and the handle is null afterwards. *)
Theorem destroy_model_idempotent model w :
  let first := destroy_model model w in
  let second := destroy_model (fst first) (snd first) in
  (d_weights model = 0 -> first = (set_seed [] model, w)) /\
  second = first /\
  d_weights (fst second) = 0 /\
  seed (fst second) = [] /\
  cuda (snd second) =
    cuda w ++ (if decide (d_weights model = 0) then []
               else [CallFree (Some (d_weights model))]) /\
  (releases (cuda (snd second)) <= releases (cuda w) + 1)%nat.
Proof.
  cbv zeta.
  split; [apply destroy_model_absent|].
  assert (Hsecond :
    destroy_model (fst (destroy_model model w)) (snd (destroy_model model w))
    = destroy_model model w).
  { rewrite (destroy_model_absent _ _ (destroy_model_d_weights model w)).
    destruct (decide (d_weights model = 0)) as [H|H].
    - rewrite destroy_model_absent by exact H. reflexivity.
    - rewrite destroy_model_present by exact H. reflexivity. }
  rewrite Hsecond.
  split; [reflexivity|].
  split; [apply destroy_model_d_weights|].
  destruct (decide (d_weights model = 0)) as [H|H].
  - rewrite destroy_model_absent by exact H. cbn.
    rewrite app_nil_r. repeat split; try reflexivity. lia.
  - rewrite destroy_model_present by exact H. cbn.
    repeat split; try reflexivity.
    unfold releases. rewrite List.filter_app, length_app. cbn. lia.
Qed.

Lemma destroy_model_idempotent_witness :
  let model := set_d_weights 4096 model_zero in
  let first := destroy_model model world_zero in
  let second := destroy_model (fst first) (snd first) in
  (d_weights model = 0 -> first = (set_seed [] model, world_zero)) /\
  second = first /\
  d_weights (fst second) = 0 /\
  seed (fst second) = [] /\
  cuda (snd second) =
    cuda world_zero ++ (if decide (d_weights model = 0) then []
                        else [CallFree (Some (d_weights model))]) /\
  (releases (cuda (snd second)) <= releases (cuda world_zero) + 1)%nat.
Proof.
  exact (destroy_model_idempotent (set_d_weights 4096 model_zero) world_zero).
Defined.

(** ** The seed transform of [cbm_core.c] *)

Lemma byte_xor_involutive (k b : byte) : byte_xor (byte_xor b k) k = b.
Proof.
  unfold byte_xor. rewrite byte_val_of_Z.
  pose proof (byte_val_range b) as Hb. pose proof (byte_val_range k) as Hk.
  assert (Hx : 0 <= Z.lxor (byte_val b) (byte_val k) < 256).
  { split; [apply Z.lxor_nonneg; lia|].
    destruct (Z.eq_dec (Z.lxor (byte_val b) (byte_val k)) 0) as [->|Hnz]; [lia|].
    change 256 with (2 ^ 8). apply Z.log2_lt_pow2.
    - assert (0 <= Z.lxor (byte_val b) (byte_val k)) by (apply Z.lxor_nonneg; lia).
      lia.
    - eapply Z.le_lt_trans; [apply Z.log2_lxor; lia|].
      apply Z.max_lub_lt.
      + destruct (Z.eq_dec (byte_val b) 0) as [->|]; [cbn; lia|].
        apply Z.log2_lt_pow2; lia.
      + destruct (Z.eq_dec (byte_val k) 0) as [->|]; [cbn; lia|].
        apply Z.log2_lt_pow2; lia. }
  rewrite Z.mod_small by exact Hx.
  rewrite Z.lxor_assoc, Z.lxor_nilpotent, Z.lxor_0_r.
  apply byte_of_Z_val.
Qed.

Lemma transmute_loop_lookup (n i : nat) (l : list byte) (j : nat) :
  transmute_loop i n l !! j =
    if decide (i <= j < i + n)%nat
    then (fun b => byte_xor b transmute_key) <$> l !! j
    else l !! j.
Proof.
  revert i l. induction n as [|n IH]; intros i l; cbn [transmute_loop].
  - rewrite decide_False by lia. reflexivity.
  - rewrite IH. destruct (decide (j = i)) as [->|Hne].
    + rewrite decide_False by lia. rewrite decide_True by lia.
      apply list_lookup_alter_eq.
    + rewrite list_lookup_alter_ne by congruence.
      destruct (decide (S i <= j < S i + n)%nat);
        [rewrite decide_True by lia | rewrite decide_False by lia]; reflexivity.
Qed.

Lemma transmute_loop_length (n i : nat) (l : list byte) :
  length (transmute_loop i n l) = length l.
Proof.
  revert i l. induction n as [|n IH]; intros i l; cbn [transmute_loop].
  - reflexivity.
  - rewrite IH. apply length_alter.
Qed.

(** C10: [cbm_holographic_transmute] replaces each of the first [size]
    bytes of the buffer by its XOR with one constant byte,
    [(unsigned char)(PHI * 255)] = 157, leaves the bytes from index [size]
    on as they were, keeps the length, and undoes itself when applied a
    second time with the same [size]. *)
Theorem cbm_holographic_transmute_involution (buffer : list byte) (size : Z) :
  transmute_key = x9d /\
  (forall j : nat,
     cbm_holographic_transmute buffer size !! j =
       if decide (Z.of_nat j < size)
       then (fun b => byte_xor b transmute_key) <$> buffer !! j
       else buffer !! j) /\
  length (cbm_holographic_transmute buffer size) = length buffer /\
  cbm_holographic_transmute (cbm_holographic_transmute buffer size) size = buffer.
Proof.
  assert (Hlookup : forall (l : list byte) (j : nat),
    cbm_holographic_transmute l size !! j =
      if decide (Z.of_nat j < size)
      then (fun b => byte_xor b transmute_key) <$> l !! j
      else l !! j).
  { intros l j. unfold cbm_holographic_transmute.
    rewrite transmute_loop_lookup.
    destruct (decide (Z.of_nat j < size));
      [rewrite decide_True by lia | rewrite decide_False by lia]; reflexivity. }
  split; [reflexivity|].
  split; [apply Hlookup|].
  split; [apply transmute_loop_length|].
  apply list_eq. intros j. rewrite !Hlookup.
  destruct (decide (Z.of_nat j < size)); [|reflexivity].
  destruct (buffer !! j) as [b|]; cbn; [|reflexivity].
  f_equal. apply byte_xor_involutive.
Qed.

(** ** [main] and its exit code *)

Lemma main_usage env argv w :
  (length argv < 2)%nat ->
  main env argv w =
    (Some 1, {| console := console w ++ [OutBanner; OutUsage];
                reads := reads w; cuda := cuda w |}).
Proof.
  intros H. unfold main. run_world. rewrite decide_True by exact H.
  cbn [console reads cuda]. rewrite <- app_assoc. reflexivity.
Qed.

Section main_run.
Variable env : environment.
Variable argv : list string.
Variable w : world.
Variable path : string.
Variable param_count : Z.
Hypothesis Hpath : argv !! 1%nat = Some path.
Hypothesis Hcount : chosen_param_count env argv = Some param_count.

Lemma main_exit :
  fst (main env argv w) =
    Some (if fst (fst (main_load env w path))
             && fst (fst (main_unfold env w path param_count))
          then 0 else 1).
Proof.
  assert (Hlen : (2 <= length argv)%nat).
  { apply lookup_lt_Some in Hpath. lia. }
  unfold main. unfold bind at 1. cbn [print].
  rewrite decide_False by lia. rewrite Hpath. cbn [default from_option id].
  unfold bind at 1. fold (print OutBanner w).
  change ({| console := console w ++ [OutBanner]; reads := reads w;
             cuda := cuda w |}) with (snd (print OutBanner w)).
  fold (main_load env w path).
  destruct (main_load env w path) as [[loaded model1] w1] eqn:Hload.
  cbn [fst snd].
  destruct loaded; cbn [negb andb]; [|reflexivity].
  assert (Hc : (if decide (3 <= length argv)%nat
                then env_stoull env (default EmptyString (argv !! 2%nat))
                else Some default_param_count) = Some param_count).
  { unfold chosen_param_count in Hcount.
    destruct (argv !! 2%nat) as [s|] eqn:E.
    - apply lookup_lt_Some in E as Hl. rewrite decide_True by lia. exact Hcount.
    - apply lookup_ge_None in E. rewrite decide_False by lia. exact Hcount. }
  rewrite Hc. unfold bind at 1.
  unfold main_unfold. rewrite Hload. cbn [fst snd].
  destruct (materialize_intelligence env model1 param_count w1)
    as [[unfolded model2] w2]. cbn [fst snd].
  destruct unfolded; cbn [negb]; [|reflexivity].
  unfold bind, ret, print.
  destruct (destroy_model model2 _). reflexivity.
Qed.
End main_run.

(** C8, as the loader behaves: a container whose payload is one byte short
    of the declared [seed_size] is loaded and unfolded like a complete one,
    and the command exits with 0. *)
Lemma main_truncated_counterexample :
  Z.of_nat (length (file_payload file_short)) = 7 /\
  seed_size (file_metadata file_short) = 8 /\
  fst (main (demo_env 1000) ["cbm_loader"; "short.cbm"; "16"] world_zero)
    = Some 0.
Proof.
  vm_compute. repeat split; reflexivity.
Qed.

(** C8 (amended): the command takes the file path as its first argument
    and the parameter count as an optional second one, 7000000000 when it
    is left out. When the count is left out or [std::stoull] accepts it, the
    exit code is 0 exactly when [load_cbm_file] and
    [materialize_intelligence] both return true, and 1 otherwise: a file
    that cannot be opened, a magic mismatch and a rejected device
    allocation all end in exit code 1. *)
Theorem main_exit_code env argv w path param_count :
  argv !! 1%nat = Some path ->
  chosen_param_count env argv = Some param_count ->
  let loaded := main_load env w path in
  let unfolded := main_unfold env w path param_count in
  (argv !! 2%nat = None -> param_count = 7000000000) /\
  (fst (main env argv w) = Some 0 <->
   fst (fst loaded) = true /\ fst (fst unfolded) = true) /\
  (fst (main env argv w) = Some 0 \/ fst (main env argv w) = Some 1) /\
  (env_fs env !! path = None -> fst (main env argv w) = Some 1) /\
  (forall data, env_fs env !! path = Some data -> (4 <= length data)%nat ->
     take 4 data <> magic4 -> fst (main env argv w) = Some 1) /\
  (fst (weights_answer env param_count (snd loaded)) <> cudaSuccess ->
   fst (main env argv w) = Some 1).
Proof.
  intros Hpath Hcount. cbv zeta.
  rewrite (main_exit env argv w path param_count Hpath Hcount).
  split.
  { intros Hnone. unfold chosen_param_count in Hcount. rewrite Hnone in Hcount.
    inversion Hcount. reflexivity. }
  split.
  { destruct (fst (fst (main_load env w path)));
      destruct (fst (fst (main_unfold env w path param_count)));
      cbn; split; intros H; try discriminate H;
      try (destruct H; discriminate); auto. }
  split.
  { destruct (fst (fst (main_load env w path)) &&
              fst (fst (main_unfold env w path param_count))); auto. }
  split.
  { intros Hfs. unfold main_load.
    rewrite (load_cbm_file_unopened env path model_zero _ Hfs). reflexivity. }
  split.
  { intros data Hfs Hlen Hmagic. unfold main_load.
    destruct (bad_magic_returns_false env path data model_zero
                (snd (print OutBanner w)) Hfs Hlen Hmagic) as (m' & w' & Hrun).
    rewrite Hrun. reflexivity. }
  intros Herr. unfold main_unfold.
  rewrite materialize_result.
  rewrite bool_decide_eq_false_2 by exact Herr.
  rewrite andb_false_r. reflexivity.
Qed.

Lemma main_exit_code_witness :
  let env := demo_env 1000 in
  let argv := ["cbm_loader"; "ok.cbm"; "16"] in
  let loaded := main_load env world_zero "ok.cbm" in
  let unfolded := main_unfold env world_zero "ok.cbm" 16 in
  (argv !! 2%nat = None -> 16 = 7000000000) /\
  (fst (main env argv world_zero) = Some 0 <->
   fst (fst loaded) = true /\ fst (fst unfolded) = true) /\
  (fst (main env argv world_zero) = Some 0 \/
   fst (main env argv world_zero) = Some 1) /\
  (env_fs env !! "ok.cbm" = None -> fst (main env argv world_zero) = Some 1) /\
  (forall data, env_fs env !! "ok.cbm" = Some data -> (4 <= length data)%nat ->
     take 4 data <> magic4 -> fst (main env argv world_zero) = Some 1) /\
  (fst (weights_answer env 16 (snd loaded)) <> cudaSuccess ->
   fst (main env argv world_zero) = Some 1).
Proof.
  apply (main_exit_code (demo_env 1000) ["cbm_loader"; "ok.cbm"; "16"]
           world_zero "ok.cbm" 16).
  - reflexivity.
  - vm_compute. reflexivity.
Defined.

(** ** The device handle along the pipeline *)




Section handle.
Variable env : environment.
Hypothesis Hmalloc : malloc_contract env.



End handle.




(** ** The whole pipeline on the fixtures *)

(** The container with seed bytes 1..8 is parsed into a Model holding
    exactly those bytes; unfolding it to 16 parameters records 16 weights
    under a device handle, which [destroy_model] then releases. *)
Example pipeline_on_file_ok :
  let loaded := load_cbm_file (demo_env 1000) "ok.cbm" model_zero world_zero in
  let unfolded :=
    materialize_intelligence (demo_env 1000) (snd (fst loaded)) 16 (snd loaded) in
  let destroyed := destroy_model (snd (fst unfolded)) (snd unfolded) in
  fst (fst loaded) = true /\
  seed (snd (fst loaded)) = seed_1_8 /\
  fst (fst unfolded) = true /\
  weight_count (snd (fst unfolded)) = 16 /\
  d_weights (snd (fst unfolded)) = 4096 /\
  d_weights (fst destroyed) = 0 /\
  cuda (snd destroyed) =
    [CallMalloc 64 cudaSuccess (Some 4096);
     CallMalloc 8 cudaSuccess (Some 8192);
     CallMemcpyHostToDevice (Some 8192) seed_1_8 8;
     CallFree (Some 8192);
     CallFree (Some 4096)].
Proof. vm_compute. repeat split; reflexivity. Qed.

(** The exit codes of the command on the fixtures: success, a file that
    is not there, a foreign magic, a device too small for the default
    7000000000 parameters, and no file argument. *)
Example main_exit_codes :
  fst (main (demo_env 1000) ["cbm_loader"; "ok.cbm"; "16"] world_zero) = Some 0 /\
  fst (main (demo_env 1000) ["cbm_loader"; "none.cbm"] world_zero) = Some 1 /\
  fst (main (demo_env 1000) ["cbm_loader"; "bad.cbm"] world_zero) = Some 1 /\
  fst (main (demo_env 1000) ["cbm_loader"; "ok.cbm"] world_zero) = Some 1 /\
  fst (main (demo_env 1000) ["cbm_loader"] world_zero) = Some 1 /\
  fst (main (demo_env 1000) ["cbm_loader"; "ok.cbm"; "many"] world_zero) = None.
Proof. vm_compute. repeat split; reflexivity. Qed.

(** * Further properties of the loader *)

(** ** What [load_cbm_file] accepts *)

(** X1: the only tests [load_cbm_file] makes are that the file opens and
    that the four magic bytes of the header, once read, are CBNQ; for a file
    of four bytes or more that is the file's own first four bytes. Version,
    flags, sizes and the length of the file decide nothing. *)
Theorem load_cbm_file_accepts_iff env path model w :
  (fst (fst (load_cbm_file env path model w)) = true <->
   exists data, env_fs env !! path = Some data /\
                take 4 (header_read data model) = magic4) /\
  (forall data, env_fs env !! path = Some data -> (4 <= length data)%nat ->
     (fst (fst (load_cbm_file env path model w)) = true <->
      take 4 data = magic4)).
Proof.
  assert (Hiff : fst (fst (load_cbm_file env path model w)) = true <->
    exists data, env_fs env !! path = Some data /\
                 take 4 (header_read data model) = magic4).
  { split.
    - intros Hok.
      destruct (load_cbm_file env path model w) as [[ok model'] w'] eqn:Hrun.
      cbn in Hok. subst ok.
      destruct (load_cbm_file_inv _ _ _ _ _ _ _ Hrun) as (_ & _ & _ & H).
      destruct (H eq_refl) as (data & Hfs & Hm & _). eauto.
    - intros (data & Hfs & Hm).
      rewrite (load_cbm_file_good_magic env path model w data Hfs Hm).
      reflexivity. }
  split; [exact Hiff|].
  intros data Hfs Hlen. rewrite Hiff. split.
  - intros (data' & Hfs' & Hm). rewrite Hfs in Hfs'. inversion Hfs'; subst data'.
    rewrite take4_header_read in Hm by exact Hlen. exact Hm.
  - intros Hm. exists data. split; [exact Hfs|].
    rewrite take4_header_read by exact Hlen. exact Hm.
Qed.

Lemma load_cbm_file_accepts_iff_witness :
  (fst (fst (load_cbm_file (demo_env 1000) "bad.cbm" model_zero world_zero)) = true <->
   exists data, env_fs (demo_env 1000) !! "bad.cbm" = Some data /\
                take 4 (header_read data model_zero) = magic4) /\
  (forall data, env_fs (demo_env 1000) !! "bad.cbm" = Some data ->
     (4 <= length data)%nat ->
     (fst (fst (load_cbm_file (demo_env 1000) "bad.cbm" model_zero world_zero)) = true <->
      take 4 data = magic4)).
Proof.
  exact (load_cbm_file_accepts_iff (demo_env 1000) "bad.cbm" model_zero world_zero).
Defined.

(** ** The layout of a complete container *)

Lemma byte_at_store_file (off k i : nat) (data rest : list byte) :
  (i < k)%nat -> (off + k <= length data)%nat ->
  byte_at i (store (take k (drop off data)) rest) = byte_at (off + i) data.
Proof.
  intros Hi Hk. unfold store. rewrite byte_at_app_l
    by (rewrite length_take, length_drop; lia).
  unfold byte_at. rewrite lookup_take_lt by lia. rewrite lookup_drop.
  reflexivity.
Qed.

Lemma le16_store_file (off k i : nat) (data rest : list byte) :
  (i + 1 < k)%nat -> (off + k <= length data)%nat ->
  le16 i (store (take k (drop off data)) rest) = le16 (off + i) data.
Proof.
  intros Hi Hk. unfold le16. rewrite !byte_at_store_file by lia.
  replace (off + (i + 1))%nat with (off + i + 1)%nat by lia. reflexivity.
Qed.

Lemma le32_store_file (off k i : nat) (data rest : list byte) :
  (i + 3 < k)%nat -> (off + k <= length data)%nat ->
  le32 i (store (take k (drop off data)) rest) = le32 (off + i) data.
Proof.
  intros Hi Hk. unfold le32. rewrite !le16_store_file by lia.
  replace (off + (i + 2))%nat with (off + i + 2)%nat by lia. reflexivity.
Qed.

Lemma take_store_file (off k j : nat) (data rest : list byte) :
  (j <= k)%nat -> (off + k <= length data)%nat ->
  take j (store (take k (drop off data)) rest) = take j (drop off data).
Proof.
  intros Hj Hk. unfold store.
  rewrite take_app_le by (rewrite length_take, length_drop; lia).
  rewrite take_take. f_equal. lia.
Qed.

Lemma header_read_file data model :
  header_read data model = store (take sizeof_CBMHeader (drop 0 data)) (header model).
Proof. reflexivity. Qed.

Lemma metadata_read_file data model :
  (sizeof_CBMHeader + sizeof_CBMMetadata <= length data)%nat ->
  metadata_read data model =
    store (take sizeof_CBMMetadata (drop sizeof_CBMHeader data)) (metadata model).
Proof.
  intros Hlen. unfold metadata_read. rewrite (metadata_bytes_full data Hlen).
  reflexivity.
Qed.

(** X2: a container with the right magic that holds the whole metadata
    block and at least the declared number of payload bytes is loaded field
    by field from fixed offsets: version at 4, flags at 6, reserved at 8,
    the name slot at 16, the architecture slot at 80, seed_size at 112,
    graph_node_count at 116, and the seed is the seed_size bytes from
    offset 120. Nothing of what the Model held in these fields before
    survives, bytes after the seed are not read, and the three reads are
    served in full. *)
Theorem load_cbm_file_layout env path data model w :
  env_fs env !! path = Some data ->
  take 4 data = magic4 ->
  (sizeof_CBMHeader + sizeof_CBMMetadata <= length data)%nat ->
  seed_size (file_metadata data) <= Z.of_nat (length (file_payload data)) ->
  exists model' w',
    load_cbm_file env path model w = ((true, model'), w') /\
    magic (header model') = magic4 /\
    version (header model') = le16 4 data /\
    flags (header model') = le16 6 data /\
    reserved (header model') = le32 8 data + 2 ^ 32 * le32 12 data /\
    model_name (metadata model') = take 64 (drop 16 data) /\
    architecture (metadata model') = take 32 (drop 80 data) /\
    seed_size (metadata model') = le32 112 data /\
    graph_node_count (metadata model') = le32 116 data /\
    seed model' = take (Z.to_nat (le32 112 data)) (drop 120 data) /\
    reads w' = reads w ++
      [(16%nat, 16%nat); (104%nat, 104%nat);
       (Z.to_nat (le32 112 data), Z.to_nat (le32 112 data))].
Proof.
  intros Hfs Hmagic Hlen Hfull.
  assert (Hm : take 4 (header_read data model) = magic4).
  { rewrite take4_header_read; [exact Hmagic | exact (magic4_length data Hmagic)]. }
  assert (Hl : (16 + 104 <= length data)%nat) by exact Hlen.
  assert (Hsz : seed_size (metadata_read data model) = le32 112 data).
  { rewrite (metadata_read_file data model Hlen). unfold seed_size.
    apply (le32_store_file 16 104 96); lia. }
  assert (Hsz' : seed_size (file_metadata data) = le32 112 data).
  { rewrite <- (seed_size_metadata_read data model Hlen). exact Hsz. }
  assert (Hsb : seed_bytes data model = take (Z.to_nat (le32 112 data)) (drop 120 data)).
  { rewrite (seed_bytes_full data model Hlen). unfold seed_count.
    rewrite Hsz. reflexivity. }
  assert (Hsl : length (seed_bytes data model) = Z.to_nat (le32 112 data)).
  { rewrite Hsb, length_take. unfold file_payload in Hfull.
    change (sizeof_CBMHeader + sizeof_CBMMetadata)%nat with 120%nat in Hfull.
    lia. }
  eexists _, _. split.
  { exact (load_cbm_file_good_magic env path model w data Hfs Hm). }
  cbn [header metadata seed reads].
  split; [exact Hm|].
  rewrite header_read_file, (metadata_read_file data model Hlen).
  unfold version, flags, reserved, model_name, architecture, graph_node_count.
  change sizeof_CBMMetadata with 104%nat. change sizeof_CBMHeader with 16%nat.
  split; [apply (le16_store_file 0 16 4); lia|].
  split; [apply (le16_store_file 0 16 6); lia|].
  split.
  { rewrite (le32_store_file 0 16 8), (le32_store_file 0 16 12) by lia.
    reflexivity. }
  split; [apply (take_store_file 16 104 64); lia|].
  split.
  { unfold store.
    rewrite drop_app_le by (rewrite length_take, length_drop; lia).
    rewrite take_app_le
      by (rewrite length_drop, length_take, length_drop; lia).
    rewrite skipn_firstn_comm, drop_drop, take_take. reflexivity. }
  split.
  { apply (le32_store_file 16 104 96); lia. }
  split; [apply (le32_store_file 16 104 100); lia|].
  split.
  { unfold seed_read, store. rewrite Hsl, Hsb.
    unfold seed_count. rewrite Hsz.
    assert (Hd : drop (Z.to_nat (le32 112 data))
                   (resize (Z.to_nat (le32 112 data)) x00 (seed model)) = []).
    { apply drop_ge. rewrite length_resize. lia. }
    rewrite Hd. apply app_nil_r. }
  rewrite header_bytes_take, (metadata_bytes_full data Hlen).
  rewrite (length_file_metadata data Hlen), length_take, Hsl.
  unfold seed_count. rewrite Hsz.
  replace (Nat.min sizeof_CBMHeader (length data)) with 16%nat
    by (unfold sizeof_CBMHeader; lia).
  reflexivity.
Qed.

Lemma load_cbm_file_layout_witness :
  exists model' w',
    load_cbm_file (demo_env 1000) "ok.cbm" (set_seed [xff; xff] model_zero) world_zero
      = ((true, model'), w') /\
    magic (header model') = magic4 /\
    version (header model') = le16 4 file_ok /\
    flags (header model') = le16 6 file_ok /\
    reserved (header model') = le32 8 file_ok + 2 ^ 32 * le32 12 file_ok /\
    model_name (metadata model') = take 64 (drop 16 file_ok) /\
    architecture (metadata model') = take 32 (drop 80 file_ok) /\
    seed_size (metadata model') = le32 112 file_ok /\
    graph_node_count (metadata model') = le32 116 file_ok /\
    seed model' = take (Z.to_nat (le32 112 file_ok)) (drop 120 file_ok) /\
    reads w' = reads world_zero ++
      [(16%nat, 16%nat); (104%nat, 104%nat);
       (Z.to_nat (le32 112 file_ok), Z.to_nat (le32 112 file_ok))].
Proof.
  apply (load_cbm_file_layout (demo_env 1000) "ok.cbm" file_ok
           (set_seed [xff; xff] model_zero) world_zero).
  - reflexivity.
  - vm_compute. reflexivity.
  - vm_compute. lia.
  - vm_compute. discriminate.
Defined.

(** ** Files that end early *)

Lemma istream_read_failed n f :
  good f = false -> istream_read n f = ([], f).
Proof. intros H. unfold istream_read. rewrite H. reflexivity. Qed.

(** A read that runs into the end of the file takes what is left and
    leaves the stream failed. *)
Lemma istream_read_short n f :
  good f = true ->
  (gpos f <= length (contents f) < gpos f + n)%nat ->
  istream_read n f =
    (drop (gpos f) (contents f),
     {| contents := contents f; gpos := length (contents f); good := false |}).
Proof.
  intros Hg Hn. unfold istream_read. rewrite Hg.
  rewrite take_ge by (rewrite length_drop; lia).
  rewrite length_drop.
  rewrite bool_decide_eq_false_2 by lia.
  repeat f_equal. lia.
Qed.

Lemma store_nil (dst : list byte) : store [] dst = dst.
Proof. reflexivity. Qed.

Section truncated_header.
Variable data : list byte.
Variable model : CBM_Model.
Hypothesis Hshort : (length data < sizeof_CBMHeader)%nat.

Lemma header_bytes_short : header_bytes data = data.
Proof.
  rewrite header_bytes_take. apply take_ge.
  unfold sizeof_CBMHeader in *. lia.
Qed.

Lemma after_header_short : good (after_header data) = false.
Proof.
  unfold after_header.
  rewrite istream_read_short by solve_read. reflexivity.
Qed.

Lemma metadata_bytes_short : metadata_bytes data = [].
Proof.
  unfold metadata_bytes.
  rewrite (istream_read_failed _ _ after_header_short). reflexivity.
Qed.

Lemma after_metadata_short : good (after_metadata data) = false.
Proof.
  unfold after_metadata.
  rewrite (istream_read_failed _ _ after_header_short).
  exact after_header_short.
Qed.

Lemma metadata_read_short : metadata_read data model = metadata model.
Proof. unfold metadata_read. rewrite metadata_bytes_short. reflexivity. Qed.

Lemma seed_bytes_short : seed_bytes data model = [].
Proof.
  unfold seed_bytes.
  rewrite (istream_read_failed _ _ after_metadata_short). reflexivity.
Qed.
End truncated_header.

(** X3: a file that opens with the magic but ends inside the 16-byte
    header is accepted: [load_cbm_file] returns true, the later reads
    extract nothing, the metadata of the Model stays what it was, and the
    seed is resized to the seed_size that this old metadata holds. Loaded
    into a zero-initialised Model such a file yields an empty seed. *)
Theorem load_cbm_file_truncated_header env path data model w :
  env_fs env !! path = Some data ->
  take 4 data = magic4 ->
  (length data < sizeof_CBMHeader)%nat ->
  exists model' w',
    load_cbm_file env path model w = ((true, model'), w') /\
    metadata model' = metadata model /\
    seed model' = resize (Z.to_nat (seed_size (metadata model))) x00 (seed model) /\
    reads w' = reads w ++
      [(sizeof_CBMHeader, length data); (sizeof_CBMMetadata, 0%nat);
       (Z.to_nat (seed_size (metadata model)), 0%nat)] /\
    (metadata model = metadata model_zero -> seed model' = []).
Proof.
  intros Hfs Hmagic Hshort.
  assert (Hm : take 4 (header_read data model) = magic4).
  { rewrite take4_header_read; [exact Hmagic | exact (magic4_length data Hmagic)]. }
  eexists _, _. split.
  { exact (load_cbm_file_good_magic env path model w data Hfs Hm). }
  cbn [metadata seed reads].
  assert (Hsd : seed_read data model =
                resize (Z.to_nat (seed_size (metadata model))) x00 (seed model)).
  { unfold seed_read. rewrite (seed_bytes_short data model Hshort), store_nil.
    unfold seed_count. rewrite (metadata_read_short data model Hshort).
    reflexivity. }
  split; [exact (metadata_read_short data model Hshort)|].
  split; [exact Hsd|].
  split.
  { rewrite (header_bytes_short data Hshort), (metadata_bytes_short data Hshort),
      (seed_bytes_short data model Hshort).
    unfold seed_count. rewrite (metadata_read_short data model Hshort).
    reflexivity. }
  intros Hz. rewrite Hsd, Hz.
  change (Z.to_nat (seed_size (metadata model_zero))) with 0%nat.
  apply resize_0.
Qed.

Lemma load_cbm_file_truncated_header_witness :
  exists model' w',
    load_cbm_file
      {| env_fs := <["magic.cbm" := take 4 CBM_MAGIC]> ∅;
         env_cudaMalloc := device_malloc 1000;
         env_stoull := decimal_stoull |}
      "magic.cbm" model_zero world_zero = ((true, model'), w') /\
    metadata model' = metadata model_zero /\
    seed model' =
      resize (Z.to_nat (seed_size (metadata model_zero))) x00 (seed model_zero) /\
    reads w' = reads world_zero ++
      [(sizeof_CBMHeader, length (take 4 CBM_MAGIC)); (sizeof_CBMMetadata, 0%nat);
       (Z.to_nat (seed_size (metadata model_zero)), 0%nat)] /\
    (metadata model_zero = metadata model_zero -> seed model' = []).
Proof.
  apply (load_cbm_file_truncated_header
           {| env_fs := <["magic.cbm" := take 4 CBM_MAGIC]> ∅;
              env_cudaMalloc := device_malloc 1000;
              env_stoull := decimal_stoull |}
           "magic.cbm" (take 4 CBM_MAGIC) model_zero world_zero).
  - reflexivity.
  - reflexivity.
  - vm_compute. lia.
Defined.

Section truncated_metadata.
Variable data : list byte.
Variable model : CBM_Model.
Hypothesis Hhead : (sizeof_CBMHeader <= length data)%nat.
Hypothesis Hshort : (length data < sizeof_CBMHeader + sizeof_CBMMetadata)%nat.

Lemma metadata_bytes_rest : metadata_bytes data = drop sizeof_CBMHeader data.
Proof.
  unfold metadata_bytes. rewrite after_header_full by exact Hhead.
  rewrite istream_read_short by solve_read. reflexivity.
Qed.

Lemma after_metadata_rest : good (after_metadata data) = false.
Proof.
  unfold after_metadata. rewrite after_header_full by exact Hhead.
  rewrite istream_read_short by solve_read. reflexivity.
Qed.

Lemma seed_bytes_rest : seed_bytes data model = [].
Proof.
  unfold seed_bytes.
  rewrite (istream_read_failed _ _ after_metadata_rest). reflexivity.
Qed.
End truncated_metadata.

(** What the three reads extract is, put together, the start of the file:
    nothing is skipped and nothing is read twice. *)
Lemma reads_prefix data model :
  header_bytes data ++ metadata_bytes data ++ seed_bytes data model =
  take (sizeof_CBMHeader + sizeof_CBMMetadata + seed_count data model) data.
Proof.
  destruct (decide (length data < sizeof_CBMHeader)%nat) as [H1|H1].
  { rewrite (header_bytes_short data H1), (metadata_bytes_short data H1),
      (seed_bytes_short data model H1).
    rewrite take_ge by lia. rewrite !app_nil_r. reflexivity. }
  destruct (decide (length data < sizeof_CBMHeader + sizeof_CBMMetadata)%nat)
    as [H2|H2].
  { rewrite header_bytes_take, (metadata_bytes_rest data ltac:(lia) H2),
      (seed_bytes_rest data model ltac:(lia) H2).
    rewrite (take_ge data (_ + _ + _)) by lia.
    rewrite app_nil_r. apply take_drop. }
  rewrite header_bytes_take, (metadata_bytes_full data ltac:(lia)),
    (seed_bytes_full data model ltac:(lia)).
  unfold file_metadata, file_payload.
  rewrite <- (take_take_drop data (sizeof_CBMHeader + sizeof_CBMMetadata)).
  rewrite <- (take_take_drop data sizeof_CBMHeader).
  rewrite <- app_assoc. reflexivity.
Qed.

(** X4: on a file that starts with the magic, [load_cbm_file] issues
    three reads, for 16, 104 and seed_size bytes, which extract [a], [b] and
    [c] bytes. What the Model then holds at the front of its header, of its
    metadata and of its seed, [a], [b] and [c] bytes long, is put together
    the first min (120 + seed_size, length of the file) bytes of the file,
    in order: no byte of the file is skipped, stored twice or replaced, and
    none past the declared payload is looked at. Behind these bytes the
    three fields hold what they held before (for the seed, what [resize]
    left). *)
Theorem load_cbm_file_bytes_read env path data model w :
  env_fs env !! path = Some data ->
  take 4 data = magic4 ->
  exists model' w' (a b c : nat),
    load_cbm_file env path model w = ((true, model'), w') /\
    reads w' = reads w ++
      [(16%nat, a); (104%nat, b); (Z.to_nat (seed_size (metadata model')), c)] /\
    take a (header model') ++ take b (metadata model') ++ take c (seed model')
      = take (120 + Z.to_nat (seed_size (metadata model'))) data /\
    (a + b + c =
     Nat.min (120 + Z.to_nat (seed_size (metadata model'))) (length data))%nat /\
    drop a (header model') = drop a (header model) /\
    drop b (metadata model') = drop b (metadata model) /\
    drop c (seed model') =
      drop c (resize (Z.to_nat (seed_size (metadata model'))) x00 (seed model)).
Proof.
  intros Hfs Hmagic.
  assert (Hm : take 4 (header_read data model) = magic4).
  { rewrite take4_header_read; [exact Hmagic | exact (magic4_length data Hmagic)]. }
  eexists _, _, (length (header_bytes data)), (length (metadata_bytes data)),
          (length (seed_bytes data model)).
  split.
  { exact (load_cbm_file_good_magic env path model w data Hfs Hm). }
  cbn [header metadata seed reads].
  split; [reflexivity|].
  pose proof (reads_prefix data model) as Hp.
  change (sizeof_CBMHeader + sizeof_CBMMetadata + seed_count data model)%nat
    with (120 + Z.to_nat (seed_size (metadata_read data model)))%nat in Hp.
  change (seed_count data model)
    with (Z.to_nat (seed_size (metadata_read data model))).
  set (n := Z.to_nat (seed_size (metadata_read data model))) in *.
  unfold header_read, metadata_read, seed_read, store.
  rewrite !take_app_length, !drop_app_length.
  split; [exact Hp|].
  split.
  { apply (f_equal length) in Hp.
    rewrite !length_app, length_take in Hp. lia. }
  repeat split; reflexivity.
Qed.

Lemma load_cbm_file_bytes_read_witness :
  exists model' w' (a b c : nat),
    load_cbm_file (demo_env 1000) "short.cbm" model_zero world_zero
      = ((true, model'), w') /\
    reads w' = reads world_zero ++
      [(16%nat, a); (104%nat, b); (Z.to_nat (seed_size (metadata model')), c)] /\
    take a (header model') ++ take b (metadata model') ++ take c (seed model')
      = take (120 + Z.to_nat (seed_size (metadata model'))) file_short /\
    (a + b + c =
     Nat.min (120 + Z.to_nat (seed_size (metadata model'))) (length file_short))%nat /\
    drop a (header model') = drop a (header model_zero) /\
    drop b (metadata model') = drop b (metadata model_zero) /\
    drop c (seed model') =
      drop c (resize (Z.to_nat (seed_size (metadata model'))) x00
                     (seed model_zero)).
Proof.
  apply (load_cbm_file_bytes_read (demo_env 1000) "short.cbm" file_short
           model_zero world_zero).
  - reflexivity.
  - vm_compute. reflexivity.
Defined.

(** On the container that is one byte short the reads extract 16, 104 and
    7 bytes: 127 in all, the whole file. *)
Example bytes_read_file_short :
  reads (snd (load_cbm_file (demo_env 1000) "short.cbm" model_zero world_zero))
    = [(16%nat, 16%nat); (104%nat, 104%nat); (8%nat, 7%nat)] /\
  length file_short = 127%nat.
Proof. vm_compute. split; reflexivity. Qed.

(** ** The name that is printed *)

Lemma c_str_app (l1 l2 : list byte) :
  Forall (fun b => b <> x00) l1 -> c_str (l1 ++ l2) = l1 ++ c_str l2.
Proof.
  induction 1 as [|b l1 Hb _ IH]; [reflexivity|].
  cbn [app c_str]. rewrite decide_False by exact Hb. rewrite IH. reflexivity.
Qed.

Lemma c_str_length (l : list byte) : (length (c_str l) <= length l)%nat.
Proof.
  induction l as [|b l IH]; cbn [c_str]; [lia|].
  destruct (decide (b = x00)); cbn [length]; lia.
Qed.

Lemma c_str_no_nul (l : list byte) : Forall (fun b => b <> x00) (c_str l).
Proof.
  induction l as [|b l IH]; cbn [c_str]; [constructor|].
  destruct (decide (b = x00)); constructor; assumption.
Qed.

Lemma c_str_stops (l1 l2 : list byte) :
  Forall (fun b => b <> x00) l1 -> c_str (l1 ++ x00 :: l2) = l1.
Proof.
  intros H. rewrite c_str_app by exact H. cbn [c_str].
  rewrite decide_True by reflexivity. apply app_nil_r.
Qed.

(** X5: the model name is printed as a C string from the start of the
    64-byte name slot. It never contains a NUL; when the slot has one, the
    printed name is the bytes before the first NUL, whatever follows; when
    the slot has none, printing runs on: the printed name is the whole slot
    followed by the architecture text (a NUL further on in the metadata
    block ends both). *)
Theorem load_cbm_file_printed_name env path data model w :
  env_fs env !! path = Some data ->
  take 4 data = magic4 ->
  (sizeof_CBMHeader + sizeof_CBMMetadata <= length data)%nat ->
  exists model' w' name arch,
    load_cbm_file env path model w = ((true, model'), w') /\
    console w' !! (length (console w) + 1)%nat = Some (OutModel name) /\
    console w' !! (length (console w) + 2)%nat = Some (OutArchitecture arch) /\
    Forall (fun b => b <> x00) name /\
    (forall pre post, model_name (metadata model') = pre ++ x00 :: post ->
       Forall (fun b => b <> x00) pre -> name = pre) /\
    (Forall (fun b => b <> x00) (model_name (metadata model')) ->
     x00 ∈ drop 64 (metadata model') ->
     name = take 64 (drop 16 data) ++ arch).
Proof.
  intros Hfs Hmagic Hlen.
  assert (Hm : take 4 (header_read data model) = magic4).
  { rewrite take4_header_read; [exact Hmagic | exact (magic4_length data Hmagic)]. }
  eexists _, _, (c_str (metadata_read data model)),
         (c_str (drop 64 (metadata_read data model))).
  split.
  { exact (load_cbm_file_good_magic env path model w data Hfs Hm). }
  cbn [metadata console].
  split.
  { rewrite lookup_app_r by lia.
    replace (length (console w) + 1 - length (console w))%nat with 1%nat by lia.
    reflexivity. }
  split.
  { rewrite lookup_app_r by lia.
    replace (length (console w) + 2 - length (console w))%nat with 2%nat by lia.
    reflexivity. }
  split; [apply c_str_no_nul|].
  unfold model_name.
  split.
  - intros pre post Hslot Hpre.
    rewrite <- (take_drop 64 (metadata_read data model)), Hslot.
    rewrite <- app_assoc. cbn [app]. apply c_str_stops. exact Hpre.
  - intros Hslot _.
    rewrite <- (take_drop 64 (metadata_read data model)) at 1.
    rewrite c_str_app by exact Hslot. f_equal.
    rewrite (metadata_read_file data model Hlen).
    apply (take_store_file 16 104 64); unfold sizeof_CBMHeader, sizeof_CBMMetadata in *; lia.
Qed.

Lemma load_cbm_file_printed_name_witness :
  exists model' w' name arch,
    load_cbm_file (demo_env 1000) "ok.cbm" model_zero world_zero
      = ((true, model'), w') /\
    console w' !! (length (console world_zero) + 1)%nat = Some (OutModel name) /\
    console w' !! (length (console world_zero) + 2)%nat
      = Some (OutArchitecture arch) /\
    Forall (fun b => b <> x00) name /\
    (forall pre post, model_name (metadata model') = pre ++ x00 :: post ->
       Forall (fun b => b <> x00) pre -> name = pre) /\
    (Forall (fun b => b <> x00) (model_name (metadata model')) ->
     x00 ∈ drop 64 (metadata model') ->
     name = take 64 (drop 16 file_ok) ++ arch).
Proof.
  apply (load_cbm_file_printed_name (demo_env 1000) "ok.cbm" file_ok
           model_zero world_zero).
  - reflexivity.
  - vm_compute. reflexivity.
  - vm_compute. lia.
Defined.

(** ** More on [materialize_intelligence] *)

(** X6: only the allocation of the weight buffer is checked. Once it is
    granted, [materialize_intelligence] returns true and announces
    completion whatever the runtime answers to the allocation of the staged
    seed; the copy and the release are issued on whatever pointer that
    second call stored, on an uninitialised one when it stored nothing. The
    seed of the Model is not changed. *)
Theorem materialize_staging_unchecked env model param_count w err staged :
  fst (weights_answer env param_count w) = cudaSuccess ->
  seed_answer env model param_count w = (err, staged) ->
  exists model' w',
    materialize_intelligence env model param_count w = ((true, model'), w') /\
    cuda w' = cuda w ++
      [weights_call env param_count w;
       CallMalloc (Z.of_nat (length (seed model))) err staged;
       CallMemcpyHostToDevice staged (seed model) (Z.of_nat (length (seed model)));
       CallFree staged] /\
    last (console w') = Some OutMaterializationComplete /\
    seed model' = seed model /\
    weight_count model' = param_count.
Proof.
  intros Hok Hseed. eexists _, _. split.
  { exact (materialize_granted env model param_count w Hok). }
  cbn [cuda console]. rewrite Hseed. cbn [fst snd].
  split; [reflexivity|].
  split.
  { rewrite last_app. reflexivity. }
  split; reflexivity.
Qed.

(** The staging allocation is rejected and the loader still reports
    success. *)
Lemma materialize_staging_unchecked_witness :
  fst (weights_answer (demo_env 1000) 16 world_zero) = cudaSuccess /\
  seed_answer (demo_env 1000) model_zero 16 world_zero
    = (cudaErrorMemoryAllocation, None) /\
  exists model' w',
    materialize_intelligence (demo_env 1000) model_zero 16 world_zero
      = ((true, model'), w') /\
    cuda w' = cuda world_zero ++
      [weights_call (demo_env 1000) 16 world_zero;
       CallMalloc (Z.of_nat (length (seed model_zero)))
                  cudaErrorMemoryAllocation None;
       CallMemcpyHostToDevice None (seed model_zero)
                              (Z.of_nat (length (seed model_zero)));
       CallFree None] /\
    last (console w') = Some OutMaterializationComplete /\
    seed model' = seed model_zero /\
    weight_count model' = 16.
Proof.
  split; [reflexivity|]. split; [reflexivity|].
  apply (materialize_staging_unchecked (demo_env 1000) model_zero 16 world_zero
           cudaErrorMemoryAllocation None); reflexivity.
Defined.

(** X7: [materialize_intelligence] makes at most four device calls and the
    only pointer it ever releases is the one stored by the staging
    allocation of that same call. In particular it does not release the
    weight buffer a Model already holds before it overwrites the handle. *)
Theorem materialize_releases_only_staged env model param_count w :
  exists added,
    cuda (snd (materialize_intelligence env model param_count w))
      = cuda w ++ added /\
    (length added <= 4)%nat /\
    (forall ptr, CallFree ptr ∈ added ->
       fst (fst (materialize_intelligence env model param_count w)) = true /\
       ptr = snd (seed_answer env model param_count w)) /\
    d_weights (snd (fst (materialize_intelligence env model param_count w)))
      = default (d_weights model) (snd (weights_answer env param_count w)).
Proof.
  destruct (decide (fst (weights_answer env param_count w) = cudaSuccess))
    as [Hok|Herr].
  - rewrite (materialize_granted env model param_count w Hok). cbn [fst snd cuda].
    eexists. split; [reflexivity|]. split; [cbn; lia|].
    split; [|reflexivity].
    intros ptr Hin. split; [reflexivity|].
    unfold weights_call in Hin.
    repeat (apply elem_of_cons in Hin as [Hin|Hin]; [try discriminate Hin|]).
    + inversion Hin. reflexivity.
    + apply elem_of_nil in Hin. destruct Hin.
  - rewrite (materialize_rejected env model param_count w Herr). cbn [fst snd cuda].
    eexists. split; [reflexivity|]. split; [cbn; lia|].
    split; [|reflexivity].
    intros ptr Hin. unfold weights_call in Hin.
    apply elem_of_cons in Hin as [Hin|Hin]; [discriminate Hin|].
    apply elem_of_nil in Hin. destruct Hin.
Qed.

Lemma materialize_releases_only_staged_witness :
  let model := set_d_weights 77 (set_seed seed_1_8 model_zero) in
  exists added,
    cuda (snd (materialize_intelligence (demo_env 1000) model 16 world_zero))
      = cuda world_zero ++ added /\
    (length added <= 4)%nat /\
    (forall ptr, CallFree ptr ∈ added ->
       fst (fst (materialize_intelligence (demo_env 1000) model 16 world_zero))
         = true /\
       ptr = snd (seed_answer (demo_env 1000) model 16 world_zero)) /\
    d_weights (snd (fst (materialize_intelligence (demo_env 1000) model 16 world_zero)))
      = default (d_weights model) (snd (weights_answer (demo_env 1000) 16 world_zero)).
Proof.
  exact (materialize_releases_only_staged (demo_env 1000)
           (set_d_weights 77 (set_seed seed_1_8 model_zero)) 16 world_zero).
Defined.

(** X8: the byte count passed to the first [cudaMalloc] is
    [param_count * sizeof(float)] computed in [size_t]. Below 2^62
    parameters it is four bytes per parameter; from 2^62 on the product
    wraps and the request is at least 2^64 bytes short of that, while the
    Model is still given [weight_count = param_count]. *)
Theorem materialize_request_size env model param_count w :
  0 <= param_count < 2 ^ 64 ->
  exists err stored,
    cuda (snd (materialize_intelligence env model param_count w))
      !! length (cuda w)
      = Some (CallMalloc (weights_request param_count) err stored) /\
    weight_count (snd (fst (materialize_intelligence env model param_count w)))
      = param_count /\
    0 <= weights_request param_count < 2 ^ 64 /\
    (param_count < 2 ^ 62 -> weights_request param_count = 4 * param_count) /\
    (2 ^ 62 <= param_count ->
     weights_request param_count <= 4 * param_count - 2 ^ 64).
Proof.
  intros Hr.
  exists (fst (weights_answer env param_count w)),
         (snd (weights_answer env param_count w)).
  split.
  { destruct (decide (fst (weights_answer env param_count w) = cudaSuccess))
      as [Hok|Herr].
    - rewrite (materialize_granted env model param_count w Hok). cbn [snd cuda].
      rewrite lookup_app_r by lia. rewrite Nat.sub_diag. reflexivity.
    - rewrite (materialize_rejected env model param_count w Herr). cbn [snd cuda].
      rewrite lookup_app_r by lia. rewrite Nat.sub_diag. reflexivity. }
  split; [rewrite materialize_model; reflexivity|].
  unfold weights_request, to_size_t, SIZE_MAX1, sizeof_float.
  pose proof (Z.mod_pos_bound (param_count * 4) (2 ^ 64) ltac:(lia)) as Hb.
  split; [exact Hb|].
  split.
  - intros Hlt. rewrite Z.mod_small by lia. lia.
  - intros Hge.
    pose proof (Z.div_mod (param_count * 4) (2 ^ 64) ltac:(lia)) as Hdm.
    assert (1 <= param_count * 4 / 2 ^ 64)
      by (apply Z.div_le_lower_bound; lia).
    nia.
Qed.

Lemma materialize_request_size_witness :
  exists err stored,
    cuda (snd (materialize_intelligence (demo_env 1000) model_zero (2 ^ 62 + 1)
                                        world_zero))
      !! length (cuda world_zero)
      = Some (CallMalloc (weights_request (2 ^ 62 + 1)) err stored) /\
    weight_count (snd (fst (materialize_intelligence (demo_env 1000) model_zero
                                                     (2 ^ 62 + 1) world_zero)))
      = 2 ^ 62 + 1 /\
    0 <= weights_request (2 ^ 62 + 1) < 2 ^ 64 /\
    (2 ^ 62 + 1 < 2 ^ 62 -> weights_request (2 ^ 62 + 1) = 4 * (2 ^ 62 + 1)) /\
    (2 ^ 62 <= 2 ^ 62 + 1 ->
     weights_request (2 ^ 62 + 1) <= 4 * (2 ^ 62 + 1) - 2 ^ 64).
Proof.
  apply (materialize_request_size (demo_env 1000) model_zero (2 ^ 62 + 1)
           world_zero).
  lia.
Defined.

(** X9: just above the largest parameter count whose block count fits an
    [int], the block count that is printed is negative: for a count of more
    than 2^39 - 256 and at most 2^40 - 256 it is the true number of blocks
    less 2^32. *)
Theorem blocks_negative param_count :
  2 ^ 39 - 256 < param_count <= 2 ^ 40 - 256 ->
  blocks param_count = (param_count + 255) / 256 - 2 ^ 32 /\
  - 2 ^ 31 <= blocks param_count < 0.
Proof.
  intros Hr. unfold blocks, to_int, to_size_t, threads, SIZE_MAX1.
  rewrite (Z.mod_small 256) by lia.
  rewrite (Z.mod_small (param_count + 256)) by lia.
  rewrite (Z.mod_small (param_count + 256 - 1)) by lia.
  replace (param_count + 256 - 1) with (param_count + 255) by lia.
  assert (Hq : 2 ^ 31 <= (param_count + 255) / 256 < 2 ^ 32).
  { split; [apply Z.div_le_lower_bound; lia|].
    apply Z.div_lt_upper_bound; lia. }
  replace ((param_count + 255) / 256 + 2 ^ 31)
    with (((param_count + 255) / 256 - 2 ^ 31) + 1 * 2 ^ 32) by lia.
  rewrite Z.mod_add by lia.
  rewrite Z.mod_small by lia. lia.
Qed.

Lemma blocks_negative_witness :
  blocks (2 ^ 39) = (2 ^ 39 + 255) / 256 - 2 ^ 32 /\
  - 2 ^ 31 <= blocks (2 ^ 39) < 0.
Proof.
  apply (blocks_negative (2 ^ 39)). lia.
Defined.

(** ** The device calls of [main] *)

Lemma main_run_result env argv w path :
  argv !! 1%nat = Some path ->
  main env argv w =
    let '(loaded, model1, w1) := main_load env w path in
    if loaded then
      match chosen_param_count env argv with
      | None => (None, w1)
      | Some param_count =>
          let '(unfolded, model2, w2) :=
            materialize_intelligence env model1 param_count w1 in
          if unfolded then
            (Some 0,
             snd (destroy_model model2
                    (snd (print (OutModelReady (d_weights model2)) w2))))
          else (Some 1, w2)
      end
    else (Some 1, w1).
Proof.
  intros Hpath.
  assert (Hlen : (2 <= length argv)%nat).
  { apply lookup_lt_Some in Hpath. lia. }
  unfold main. unfold bind at 1. cbn [print].
  rewrite decide_False by lia. rewrite Hpath. cbn [default from_option id].
  unfold bind at 1.
  change ({| console := console w ++ [OutBanner]; reads := reads w;
             cuda := cuda w |}) with (snd (print OutBanner w)).
  fold (main_load env w path).
  destruct (main_load env w path) as [[loaded model1] w1].
  destruct loaded; cbn [negb]; [|reflexivity].
  assert (Hc : (if decide (3 <= length argv)%nat
                then env_stoull env (default EmptyString (argv !! 2%nat))
                else Some default_param_count) = chosen_param_count env argv).
  { unfold chosen_param_count.
    destruct (argv !! 2%nat) as [s|] eqn:E.
    - apply lookup_lt_Some in E as Hl. rewrite decide_True by lia. reflexivity.
    - apply lookup_ge_None in E. rewrite decide_False by lia. reflexivity. }
  rewrite Hc. destruct (chosen_param_count env argv) as [param_count|];
    [|reflexivity].
  unfold bind at 1.
  destruct (materialize_intelligence env model1 param_count w1)
    as [[unfolded model2] w2].
  destruct unfolded; cbn [negb]; [|reflexivity].
  unfold bind at 1. unfold bind, ret.
  destruct (print (OutModelReady (d_weights model2)) w2) as [u w3].
  cbn [snd]. destruct (destroy_model model2 w3). reflexivity.
Qed.

(** X10: with a runtime that stores a non-null pointer when it grants a
    request and nothing when it rejects one, [main] never exits holding the
    weight buffer. Either it makes no device call at all (and does not exit
    with 0), or its one call is the rejected allocation and it exits with 1,
    or it exits with 0 after five calls of which the last releases the
    pointer that the first one obtained and the fourth releases the staged
    seed. *)
Theorem main_device_balance env argv w :
  malloc_contract env ->
  exists added,
    cuda (snd (main env argv w)) = cuda w ++ added /\
    ((added = [] /\ fst (main env argv w) <> Some 0) \/
     (exists size err,
        err <> cudaSuccess /\ added = [CallMalloc size err None] /\
        fst (main env argv w) = Some 1) \/
     (exists size p n err staged sd,
        p <> 0 /\
        added = [CallMalloc size cudaSuccess (Some p);
                 CallMalloc n err staged;
                 CallMemcpyHostToDevice staged sd n;
                 CallFree staged;
                 CallFree (Some p)] /\
        fst (main env argv w) = Some 0)).
Proof.
  intros Hmalloc.
  destruct (argv !! 1%nat) as [path|] eqn:Hpath.
  2:{ apply lookup_ge_None in Hpath.
      rewrite main_usage by lia. cbn [fst snd cuda].
      exists []. split; [symmetry; apply app_nil_r|].
      left. split; [reflexivity | discriminate]. }
  rewrite (main_run_result env argv w path Hpath).
  destruct (main_load env w path) as [[loaded model1] w1] eqn:Hload.
  unfold main_load in Hload.
  destruct (load_cbm_file_inv _ _ _ _ _ _ _ Hload) as (_ & _ & Hcuda & _).
  cbn [print snd cuda] in Hcuda.
  destruct loaded.
  2:{ cbn [fst snd]. exists []. rewrite Hcuda. split; [symmetry; apply app_nil_r|].
      left. split; [reflexivity | discriminate]. }
  destruct (chosen_param_count env argv) as [param_count|].
  2:{ cbn [fst snd]. exists []. rewrite Hcuda. split; [symmetry; apply app_nil_r|].
      left. split; [reflexivity | discriminate]. }
  destruct (weights_answer env param_count w1) as [err stored] eqn:Hanswer.
  destruct (Hmalloc _ _ _ _ Hanswer) as [Hgrant Hreject].
  destruct (decide (err = cudaSuccess)) as [Herr|Herr].
  - destruct (Hgrant Herr) as (p & -> & Hp). subst err.
    rewrite (materialize_granted env model1 param_count w1)
      by (rewrite Hanswer; reflexivity).
    unfold after_weights_malloc, weights_call. rewrite Hanswer.
    cbn [fst snd default from_option id set_d_weights d_weights print].
    rewrite destroy_model_present by exact Hp.
    cbn [fst snd cuda d_weights]. rewrite Hcuda.
    eexists. split; [rewrite <- app_assoc; reflexivity|].
    right. right. eexists _, p, _, _, _, _.
    split; [exact Hp|]. split; reflexivity.
  - rewrite (Hreject Herr) in Hanswer.
    rewrite (materialize_rejected env model1 param_count w1)
      by (rewrite Hanswer; exact Herr).
    unfold weights_call. rewrite Hanswer. cbn [fst snd cuda]. rewrite Hcuda.
    eexists. split; [reflexivity|].
    right. left. eexists _, err. split; [exact Herr|]. split; reflexivity.
Qed.

Lemma main_device_balance_witness :
  malloc_contract (demo_env 1000) /\
  exists added,
    cuda (snd (main (demo_env 1000) ["cbm_loader"; "ok.cbm"; "16"] world_zero))
      = cuda world_zero ++ added /\
    ((added = [] /\
      fst (main (demo_env 1000) ["cbm_loader"; "ok.cbm"; "16"] world_zero)
        <> Some 0) \/
     (exists size err,
        err <> cudaSuccess /\ added = [CallMalloc size err None] /\
        fst (main (demo_env 1000) ["cbm_loader"; "ok.cbm"; "16"] world_zero)
          = Some 1) \/
     (exists size p n err staged sd,
        p <> 0 /\
        added = [CallMalloc size cudaSuccess (Some p);
                 CallMalloc n err staged;
                 CallMemcpyHostToDevice staged sd n;
                 CallFree staged;
                 CallFree (Some p)] /\
        fst (main (demo_env 1000) ["cbm_loader"; "ok.cbm"; "16"] world_zero)
          = Some 0)).
Proof.
  assert (Hc : malloc_contract (demo_env 1000)).
  { intros calls size err stored. cbn [demo_env env_cudaMalloc].
    unfold device_malloc. intros H.
    destruct (decide (0 < size <= 1000)); inversion H; subst; split; intros He.
    - exists (4096 * (1 + Z.of_nat (length calls))). split; [reflexivity | lia].
    - destruct (He eq_refl).
    - discriminate He.
    - reflexivity. }
  split; [exact Hc|].
  exact (main_device_balance (demo_env 1000) ["cbm_loader"; "ok.cbm"; "16"]
           world_zero Hc).
Defined.

(** X11: the parameter count is parsed only after the file has loaded. A
    count that [std::stoull] rejects goes unnoticed when the file does not
    load (exit code 1); when the file loads, the process is terminated by
    the exception before any device call is made. *)
Theorem main_rejected_count env argv w path s :
  argv !! 1%nat = Some path ->
  argv !! 2%nat = Some s ->
  env_stoull env s = None ->
  (fst (fst (main_load env w path)) = false ->
   fst (main env argv w) = Some 1) /\
  (fst (fst (main_load env w path)) = true ->
   fst (main env argv w) = None /\ cuda (snd (main env argv w)) = cuda w).
Proof.
  intros Hpath Hs Hthrow.
  rewrite (main_run_result env argv w path Hpath).
  unfold chosen_param_count. rewrite Hs, Hthrow.
  destruct (main_load env w path) as [[loaded model1] w1] eqn:Hload.
  unfold main_load in Hload.
  destruct (load_cbm_file_inv _ _ _ _ _ _ _ Hload) as (_ & _ & Hcuda & _).
  cbn [print snd cuda] in Hcuda. cbn [fst snd].
  split; intros ->; [reflexivity|]. split; [reflexivity | exact Hcuda].
Qed.

Lemma main_rejected_count_witness :
  (fst (fst (main_load (demo_env 1000) world_zero "ok.cbm")) = false ->
   fst (main (demo_env 1000) ["cbm_loader"; "ok.cbm"; "many"] world_zero) = Some 1) /\
  (fst (fst (main_load (demo_env 1000) world_zero "ok.cbm")) = true ->
   fst (main (demo_env 1000) ["cbm_loader"; "ok.cbm"; "many"] world_zero) = None /\
   cuda (snd (main (demo_env 1000) ["cbm_loader"; "ok.cbm"; "many"] world_zero))
     = cuda world_zero).
Proof.
  apply (main_rejected_count (demo_env 1000) ["cbm_loader"; "ok.cbm"; "many"]
           world_zero "ok.cbm" "many"); reflexivity.
Defined.

(** ** What the calls keep along the pipeline *)

Lemma last_requested_snoc history e :
  last_requested (history ++ [e]) = requested_step (last_requested history) e.
Proof. unfold last_requested. rewrite foldl_app. reflexivity. Qed.

Lemma requested_fold_other since n :
  Forall (fun e : pipeline_call * bool => is_materialize (fst e) = false) since ->
  foldl requested_step n since = n.
Proof.
  intros H. revert n. induction H as [|[c ok] since Hc _ IH]; intros n;
    [reflexivity|].
  cbn [foldl]. rewrite IH. destruct c; cbn in Hc; try discriminate Hc; reflexivity.
Qed.

Lemma last_requested_spec before param_count ok since :
  Forall (fun e : pipeline_call * bool => is_materialize (fst e) = false) since ->
  last_requested (before ++ (DoMaterialize param_count, ok) :: since) = param_count.
Proof.
  intros H. unfold last_requested. rewrite foldl_app. cbn [foldl requested_step].
  apply requested_fold_other. exact H.
Qed.

Lemma step_weight_count env c model w :
  weight_count (snd (fst (step env c model w)))
  = requested_step (weight_count model) (c, fst (fst (step env c model w))).
Proof.
  destruct c as [path|param_count|]; cbn [step requested_step].
  - destruct (load_cbm_file env path model w) as [[ok model'] w'] eqn:Hrun.
    destruct (load_cbm_file_inv _ _ _ _ _ _ _ Hrun) as (_ & Hc & _).
    exact Hc.
  - rewrite materialize_model. reflexivity.
  - unfold bind, ret.
    destruct (decide (d_weights model = 0)) as [H|H].
    + rewrite destroy_model_absent by exact H. reflexivity.
    + rewrite destroy_model_present by exact H. reflexivity.
Qed.

Lemma run_weight_count env calls : forall model history w,
  weight_count model = last_requested history ->
  weight_count (fst (fst (run env calls model history w)))
  = last_requested (snd (fst (run env calls model history w))).
Proof.
  induction calls as [|c rest IH]; intros model history w Hinv.
  - exact Hinv.
  - cbn [run]. unfold bind.
    pose proof (step_weight_count env c model w) as Hstep.
    destruct (step env c model w) as [[ok model'] w'].
    apply IH. rewrite last_requested_snoc. cbn [fst snd] in Hstep.
    rewrite Hstep, Hinv. reflexivity.
Qed.

(** X12: whatever calls are made on a zero-initialised Model, its
    [weight_count] is the parameter count of the latest
    [materialize_intelligence] call, whether that call succeeded or not, and
    0 before the first such call. Neither [destroy_model] nor a later
    [load_cbm_file] resets it. *)
Theorem weight_count_invariant env calls w :
  let final := fst (run env calls model_zero [] w) in
  weight_count (fst final) = last_requested (snd final) /\
  (forall before param_count ok since,
     snd final = before ++ (DoMaterialize param_count, ok) :: since ->
     Forall (fun e : pipeline_call * bool => is_materialize (fst e) = false) since ->
     weight_count (fst final) = param_count) /\
  (Forall (fun e : pipeline_call * bool => is_materialize (fst e) = false)
          (snd final) ->
   weight_count (fst final) = 0).
Proof.
  cbv zeta.
  assert (H : weight_count (fst (fst (run env calls model_zero [] w)))
              = last_requested (snd (fst (run env calls model_zero [] w))))
    by (apply run_weight_count; reflexivity).
  split; [exact H|]. split.
  - intros before pc ok since Heq Hsince. rewrite H, Heq.
    apply last_requested_spec. exact Hsince.
  - intros Hall. rewrite H. unfold last_requested.
    apply requested_fold_other. exact Hall.
Qed.

Lemma weight_count_invariant_witness :
  let final :=
    fst (run (demo_env 1000)
             [DoLoad "ok.cbm"; DoMaterialize 16; DoDestroy;
              DoMaterialize 7000000000; DoLoad "bad.cbm"]
             model_zero [] world_zero) in
  weight_count (fst final) = last_requested (snd final) /\
  (forall before param_count ok since,
     snd final = before ++ (DoMaterialize param_count, ok) :: since ->
     Forall (fun e : pipeline_call * bool => is_materialize (fst e) = false) since ->
     weight_count (fst final) = param_count) /\
  (Forall (fun e : pipeline_call * bool => is_materialize (fst e) = false)
          (snd final) ->
   weight_count (fst final) = 0).
Proof.
  exact (weight_count_invariant (demo_env 1000)
           [DoLoad "ok.cbm"; DoMaterialize 16; DoDestroy;
            DoMaterialize 7000000000; DoLoad "bad.cbm"] world_zero).
Defined.

(** The latest request of that run was rejected, and is what the Model
    reports. *)
Example weight_count_after_rejection :
  let final :=
    fst (run (demo_env 1000)
             [DoLoad "ok.cbm"; DoMaterialize 16; DoDestroy;
              DoMaterialize 7000000000; DoLoad "bad.cbm"]
             model_zero [] world_zero) in
  weight_count (fst final) = 7000000000 /\ d_weights (fst final) = 0.
Proof. vm_compute. split; reflexivity. Qed.

Lemma step_seed_length env c model w :
  (seed model = [] \/ Z.of_nat (length (seed model)) = seed_size (metadata model)) ->
  seed (snd (fst (step env c model w))) = [] \/
  Z.of_nat (length (seed (snd (fst (step env c model w)))))
  = seed_size (metadata (snd (fst (step env c model w)))).
Proof.
  intros Hinv. destruct c as [path|param_count|]; cbn [step].
  - destruct (env_fs env !! path) as [data|] eqn:Hfs.
    + destruct (decide (take 4 (header_read data model) = magic4)) as [Hm|Hm].
      * rewrite (load_cbm_file_good_magic env path model w data Hfs Hm).
        cbn [fst snd seed metadata]. right.
        rewrite length_seed_read. unfold seed_count.
        pose proof (seed_size_range (metadata_read data model)). lia.
      * rewrite (load_cbm_file_bad_magic env path model w data Hfs Hm).
        exact Hinv.
    + rewrite (load_cbm_file_unopened env path model w Hfs). exact Hinv.
  - rewrite materialize_model. exact Hinv.
  - unfold bind, ret. left.
    destruct (decide (d_weights model = 0)) as [H|H].
    + rewrite destroy_model_absent by exact H. reflexivity.
    + rewrite destroy_model_present by exact H. reflexivity.
Qed.

(** X13: whatever calls are made on a Model whose seed buffer is empty or
    exactly as long as the seed_size its metadata declares (a
    zero-initialised Model is one), the seed buffer is again empty or of the
    declared length afterwards: a failed load leaves both as they were, a
    successful one resizes the seed to the new seed_size, and
    [destroy_model] empties it. *)
Theorem seed_length_invariant env calls : forall model history w,
  (seed model = [] \/ Z.of_nat (length (seed model)) = seed_size (metadata model)) ->
  let final := fst (fst (run env calls model history w)) in
  seed final = [] \/ Z.of_nat (length (seed final)) = seed_size (metadata final).
Proof.
  induction calls as [|c rest IH]; intros model history w Hinv.
  - exact Hinv.
  - cbv zeta. cbn [run]. unfold bind.
    pose proof (step_seed_length env c model w Hinv) as Hstep.
    destruct (step env c model w) as [[ok model'] w'].
    apply IH. exact Hstep.
Qed.

Lemma seed_length_invariant_witness :
  let final :=
    fst (fst (run (demo_env 1000)
                  [DoLoad "short.cbm"; DoMaterialize 16; DoLoad "bad.cbm"]
                  model_zero [] world_zero)) in
  (seed model_zero = [] \/
   Z.of_nat (length (seed model_zero)) = seed_size (metadata model_zero)) /\
  (seed final = [] \/ Z.of_nat (length (seed final)) = seed_size (metadata final)).
Proof.
  cbv zeta. split; [left; reflexivity|].
  apply (seed_length_invariant (demo_env 1000)
           [DoLoad "short.cbm"; DoMaterialize 16; DoLoad "bad.cbm"]
           model_zero [] world_zero).
  left. reflexivity.
Defined.

(** ** More on the seed transform *)

Lemma cbm_holographic_transmute_lookup (l : list byte) (size : Z) (j : nat) :
  cbm_holographic_transmute l size !! j =
    if decide (Z.of_nat j < size)
    then (fun b => byte_xor b transmute_key) <$> l !! j
    else l !! j.
Proof.
  unfold cbm_holographic_transmute. rewrite transmute_loop_lookup.
  destruct (decide (Z.of_nat j < size));
    [rewrite decide_True by lia | rewrite decide_False by lia]; reflexivity.
Qed.

(** X14: in closed form, [cbm_holographic_transmute] maps the XOR with the
    key over the first [size] bytes and appends the rest of the buffer
    unchanged; a size of 0 or less changes nothing, and a size of the
    buffer's length or more transforms every byte. *)
Theorem cbm_holographic_transmute_closed_form (buffer : list byte) (size : Z) :
  cbm_holographic_transmute buffer size =
    ((fun b => byte_xor b transmute_key) <$> take (Z.to_nat size) buffer)
    ++ drop (Z.to_nat size) buffer /\
  (size <= 0 -> cbm_holographic_transmute buffer size = buffer) /\
  (Z.of_nat (length buffer) <= size ->
   cbm_holographic_transmute buffer size =
     (fun b => byte_xor b transmute_key) <$> buffer).
Proof.
  assert (Hclosed : cbm_holographic_transmute buffer size =
    ((fun b => byte_xor b transmute_key) <$> take (Z.to_nat size) buffer)
    ++ drop (Z.to_nat size) buffer).
  { apply list_eq. intros j. rewrite cbm_holographic_transmute_lookup.
    destruct (decide (j < length (take (Z.to_nat size) buffer))%nat) as [Hj|Hj].
    - rewrite lookup_app_l by (rewrite length_fmap; exact Hj).
      rewrite length_take in Hj.
      rewrite list_lookup_fmap, lookup_take_lt by lia.
      rewrite decide_True by lia. reflexivity.
    - rewrite lookup_app_r by (rewrite length_fmap; lia).
      rewrite length_fmap, lookup_drop. rewrite length_take in *.
      destruct (decide (Z.of_nat j < size)) as [Hlt|Hge].
      + rewrite (lookup_ge_None_2 buffer j) by lia.
        rewrite lookup_ge_None_2 by lia. reflexivity.
      + destruct (decide (Z.to_nat size <= length buffer)%nat).
        * f_equal. lia.
        * rewrite (lookup_ge_None_2 buffer j) by lia.
          rewrite lookup_ge_None_2 by lia. reflexivity. }
  split; [exact Hclosed|]. split.
  - intros Hle. rewrite Hclosed.
    replace (Z.to_nat size) with 0%nat by lia. reflexivity.
  - intros Hge. rewrite Hclosed.
    rewrite take_ge, drop_ge by lia. apply app_nil_r.
Qed.

Lemma cbm_holographic_transmute_closed_form_witness :
  cbm_holographic_transmute seed_1_8 3 =
    ((fun b => byte_xor b transmute_key) <$> take (Z.to_nat 3) seed_1_8)
    ++ drop (Z.to_nat 3) seed_1_8 /\
  (3 <= 0 -> cbm_holographic_transmute seed_1_8 3 = seed_1_8) /\
  (Z.of_nat (length seed_1_8) <= 3 ->
   cbm_holographic_transmute seed_1_8 3 =
     (fun b => byte_xor b transmute_key) <$> seed_1_8).
Proof.
  exact (cbm_holographic_transmute_closed_form seed_1_8 3).
Defined.

Lemma byte_xor_key_moves (b : byte) : byte_xor b transmute_key <> b.
Proof. destruct b; vm_compute; discriminate. Qed.

(** X15: no byte within the first [size] bytes survives the transform:
    each byte of the buffer at an index below [size] is replaced by a
    different byte, from which the XOR with the key gives the old one back. *)
Theorem cbm_holographic_transmute_moves (buffer : list byte) (size : Z)
    (j : nat) (b : byte) :
  Z.of_nat j < size ->
  buffer !! j = Some b ->
  exists b',
    cbm_holographic_transmute buffer size !! j = Some b' /\
    b' <> b /\
    byte_xor b' transmute_key = b.
Proof.
  intros Hj Hb. exists (byte_xor b transmute_key).
  rewrite cbm_holographic_transmute_lookup, decide_True by exact Hj.
  rewrite Hb. split; [reflexivity|].
  split; [apply byte_xor_key_moves | apply byte_xor_involutive].
Qed.

Lemma cbm_holographic_transmute_moves_witness :
  exists b',
    cbm_holographic_transmute seed_1_8 3 !! 2%nat = Some b' /\
    b' <> x03 /\
    byte_xor b' transmute_key = x03.
Proof.
  apply (cbm_holographic_transmute_moves seed_1_8 3 2 x03).
  - lia.
  - reflexivity.
Defined.

(** X16: two applications with different sizes commute, and together they
    change exactly the bytes between the two sizes: the bytes below the
    smaller size are transformed twice and so restored. *)
Theorem cbm_holographic_transmute_two_sizes (buffer : list byte) (a b : Z) :
  (forall j : nat,
     cbm_holographic_transmute (cbm_holographic_transmute buffer a) b !! j =
       if decide (Z.min a b <= Z.of_nat j < Z.max a b)
       then (fun x => byte_xor x transmute_key) <$> buffer !! j
       else buffer !! j) /\
  cbm_holographic_transmute (cbm_holographic_transmute buffer a) b =
  cbm_holographic_transmute (cbm_holographic_transmute buffer b) a.
Proof.
  assert (Hl : forall (x y : Z) (j : nat),
    cbm_holographic_transmute (cbm_holographic_transmute buffer x) y !! j =
      if decide (Z.min x y <= Z.of_nat j < Z.max x y)
      then (fun c => byte_xor c transmute_key) <$> buffer !! j
      else buffer !! j).
  { intros x y j. rewrite !cbm_holographic_transmute_lookup.
    destruct (decide (Z.of_nat j < y)) as [Hy|Hy];
      destruct (decide (Z.of_nat j < x)) as [Hx|Hx].
    - rewrite decide_False by lia.
      destruct (buffer !! j) as [c|]; cbn; [|reflexivity].
      f_equal. apply byte_xor_involutive.
    - rewrite decide_True by lia. reflexivity.
    - rewrite decide_True by lia. reflexivity.
    - rewrite decide_False by lia. reflexivity. }
  split; [apply Hl|].
  apply list_eq. intros j. rewrite !Hl.
  destruct (decide (Z.min a b <= Z.of_nat j < Z.max a b));
    [rewrite decide_True by lia | rewrite decide_False by lia]; reflexivity.
Qed.

(** ** What a failed load leaves behind *)

(** X17: when [load_cbm_file] returns false it has read no metadata and no
    seed: metadata, seed, device handle and weight count of the Model are
    what they were. A file that does not open leaves the whole Model
    untouched; a file rejected for its magic has already been read into the
    header field, which then holds the rejected file's first bytes. *)
Theorem load_cbm_file_failure_state env path model w model' w' :
  load_cbm_file env path model w = ((false, model'), w') ->
  metadata model' = metadata model /\ seed model' = seed model /\
  d_weights model' = d_weights model /\ weight_count model' = weight_count model /\
  (env_fs env !! path = None ->
   model' = model /\ reads w' = reads w /\
   console w' = console w ++ [ErrFailedToOpen path]) /\
  (forall data, env_fs env !! path = Some data ->
     header model' = take 16 data ++ drop (length (take 16 data)) (header model) /\
     reads w' = reads w ++ [(16%nat, length (take 16 data))] /\
     console w' = console w ++ [ErrBadMagic]).
Proof.
  intros Hrun.
  destruct (env_fs env !! path) as [data|] eqn:Hfs.
  - destruct (decide (take 4 (header_read data model) = magic4)) as [Hm|Hm].
    + rewrite (load_cbm_file_good_magic env path model w data Hfs Hm) in Hrun.
      discriminate Hrun.
    + rewrite (load_cbm_file_bad_magic env path model w data Hfs Hm) in Hrun.
      inversion Hrun; subst; clear Hrun. cbn.
      repeat split; try reflexivity; try discriminate.
      all: match goal with H : Some _ = Some _ |- _ => inversion H; subst end;
        reflexivity.
  - rewrite (load_cbm_file_unopened env path model w Hfs) in Hrun.
    inversion Hrun; subst; clear Hrun. cbn.
    repeat split; try reflexivity; try discriminate.
Qed.

Lemma load_cbm_file_failure_state_witness :
  let r := load_cbm_file (demo_env 1000) "bad.cbm" model_zero world_zero in
  r = ((false, snd (fst r)), snd r) /\
  metadata (snd (fst r)) = metadata model_zero /\
  seed (snd (fst r)) = seed model_zero /\
  d_weights (snd (fst r)) = d_weights model_zero /\
  weight_count (snd (fst r)) = weight_count model_zero /\
  (env_fs (demo_env 1000) !! "bad.cbm" = None ->
   snd (fst r) = model_zero /\ reads (snd r) = reads world_zero /\
   console (snd r) = console world_zero ++ [ErrFailedToOpen "bad.cbm"]) /\
  (forall data, env_fs (demo_env 1000) !! "bad.cbm" = Some data ->
     header (snd (fst r)) =
       take 16 data ++ drop (length (take 16 data)) (header model_zero) /\
     reads (snd r) = reads world_zero ++ [(16%nat, length (take 16 data))] /\
     console (snd r) = console world_zero ++ [ErrBadMagic]).
Proof.
  cbv zeta. split; [vm_compute; reflexivity|].
  apply (load_cbm_file_failure_state (demo_env 1000) "bad.cbm" model_zero world_zero).
  vm_compute. reflexivity.
Defined.

(** ** The seed and the outcome of [materialize_intelligence] *)

(** X18: the seed has no part in the outcome of
    [materialize_intelligence]: two Models that differ in header, metadata
    and seed get the same return value, the same handle, the same weight
    count and the same console output from the same request in the same
    world. Only the staged copy mentions the seed. *)
Theorem materialize_ignores_seed env model1 model2 param_count w :
  d_weights model1 = d_weights model2 ->
  let r1 := materialize_intelligence env model1 param_count w in
  let r2 := materialize_intelligence env model2 param_count w in
  fst (fst r1) = fst (fst r2) /\
  d_weights (snd (fst r1)) = d_weights (snd (fst r2)) /\
  weight_count (snd (fst r1)) = weight_count (snd (fst r2)) /\
  console (snd r1) = console (snd r2) /\
  seed (snd (fst r1)) = seed model1 /\ seed (snd (fst r2)) = seed model2.
Proof.
  intros Hd. cbv zeta.
  rewrite !materialize_result, !materialize_model.
  unfold after_weights_malloc. cbn [d_weights weight_count seed]. rewrite Hd.
  repeat split; try reflexivity.
  destruct (decide (fst (weights_answer env param_count w) = cudaSuccess))
    as [Hok|Herr].
  - rewrite !(materialize_granted env _ param_count w Hok). reflexivity.
  - rewrite !(materialize_rejected env _ param_count w Herr). reflexivity.
Qed.

Lemma materialize_ignores_seed_witness :
  let r1 := materialize_intelligence (demo_env 1000) model_zero 16 world_zero in
  let r2 := materialize_intelligence (demo_env 1000)
              (set_seed seed_1_8 model_zero) 16 world_zero in
  fst (fst r1) = fst (fst r2) /\
  d_weights (snd (fst r1)) = d_weights (snd (fst r2)) /\
  weight_count (snd (fst r1)) = weight_count (snd (fst r2)) /\
  console (snd r1) = console (snd r2) /\
  seed (snd (fst r1)) = seed model_zero /\
  seed (snd (fst r2)) = seed (set_seed seed_1_8 model_zero).
Proof.
  apply (materialize_ignores_seed (demo_env 1000) model_zero
           (set_seed seed_1_8 model_zero) 16 world_zero).
  reflexivity.
Defined.

(** X19: [destroy_model] empties the seed, so a Model that is unfolded
    again after it has been destroyed stages an empty seed: the staging
    allocation asks for 0 bytes and the copy moves none, although the
    metadata still declares the old seed_size. *)
Theorem materialize_after_destroy env model param_count w :
  let destroyed := destroy_model model w in
  fst (weights_answer env param_count (snd destroyed)) = cudaSuccess ->
  exists model' w' err staged,
    materialize_intelligence env (fst destroyed) param_count (snd destroyed)
      = ((true, model'), w') /\
    cuda w' = cuda (snd destroyed) ++
      [weights_call env param_count (snd destroyed);
       CallMalloc 0 err staged;
       CallMemcpyHostToDevice staged [] 0;
       CallFree staged] /\
    metadata model' = metadata model /\
    seed model' = [].
Proof.
  cbv zeta. intros Hok.
  assert (Hseed : seed (fst (destroy_model model w)) = []).
  { destruct (decide (d_weights model = 0)) as [H|H].
    - rewrite destroy_model_absent by exact H. reflexivity.
    - rewrite destroy_model_present by exact H. reflexivity. }
  assert (Hmd : metadata (fst (destroy_model model w)) = metadata model).
  { destruct (decide (d_weights model = 0)) as [H|H].
    - rewrite destroy_model_absent by exact H. reflexivity.
    - rewrite destroy_model_present by exact H. reflexivity. }
  eexists _, _, _, _. split.
  { exact (materialize_granted env _ param_count _ Hok). }
  cbn [cuda]. rewrite Hseed. cbn [length Z.of_nat].
  split; [reflexivity|].
  unfold after_weights_malloc. cbn [metadata seed].
  split; [exact Hmd | exact Hseed].
Qed.

Lemma materialize_after_destroy_witness :
  let model := set_seed seed_1_8 model_zero in
  let destroyed := destroy_model model world_zero in
  fst (weights_answer (demo_env 1000) 16 (snd destroyed)) = cudaSuccess /\
  exists model' w' err staged,
    materialize_intelligence (demo_env 1000) (fst destroyed) 16 (snd destroyed)
      = ((true, model'), w') /\
    cuda w' = cuda (snd destroyed) ++
      [weights_call (demo_env 1000) 16 (snd destroyed);
       CallMalloc 0 err staged;
       CallMemcpyHostToDevice staged [] 0;
       CallFree staged] /\
    metadata model' = metadata model /\
    seed model' = [].
Proof.
  cbv zeta. split; [reflexivity|].
  apply (materialize_after_destroy (demo_env 1000)
           (set_seed seed_1_8 model_zero) 16 world_zero).
  reflexivity.
Defined.

(** ** Where the block count is right *)

Lemma to_int_range z : - 2 ^ 31 <= to_int z < 2 ^ 31.
Proof.
  unfold to_int.
  pose proof (Z.mod_pos_bound (z + 2 ^ 31) (2 ^ 32) ltac:(lia)). lia.
Qed.

(** X20: over the whole range of [size_t], the block count computed from
    a parameter count is the number of blocks of 256 that count needs
    exactly when the count is at most 2^39 - 256. *)
Theorem blocks_exact_iff param_count :
  0 <= param_count < 2 ^ 64 ->
  (blocks param_count = (param_count + 255) / 256 <->
   param_count <= 2 ^ 39 - 256).
Proof.
  intros Hr. split.
  - intros Heq.
    destruct (Z_le_gt_dec param_count (2 ^ 39 - 256)) as [Hle|Hgt]; [exact Hle|].
    exfalso.
    pose proof (to_int_range
      (to_size_t (to_size_t (param_count + to_size_t threads) - 1)
       / to_size_t threads)) as Hb.
    fold (blocks param_count) in Hb. rewrite Heq in Hb.
    assert (2 ^ 31 <= (param_count + 255) / 256)
      by (apply Z.div_le_lower_bound; lia).
    lia.
  - intros Hle. apply blocks_in_range. lia.
Qed.

Lemma blocks_exact_iff_witness :
  blocks 7000000000 = (7000000000 + 255) / 256 <-> 7000000000 <= 2 ^ 39 - 256.
Proof.
  apply (blocks_exact_iff 7000000000). lia.
Defined.
